(** * Smart Fridge backend (server.js): advisory orchestration

  A shallow embedding of the inventory normalisers, the metrics, the two
  prompt builders, the section parser and the two advisory handlers of
  [server.js], and the properties of the specification proved (or refuted)
  on them.

  JavaScript values are modelled as the engine has them:
    - a string is its sequence of UTF-16 code units ([jsstring]);
    - a Number is an IEEE-754 binary64 value (Rocq's primitive [float]);
    - [undefined] is [None] in an [option].
  The built-ins whose result depends on a long algorithm of the language
  standard (StringToNumber, Number::toString, Date parsing) are the
  methods of the class [Engine]; the collaborators (row store, clock,
  generative model) are the fields of the record [World]. *)

From Stdlib Require Import ZArith NArith List Bool Lia String Ascii.
From Stdlib Require Import Floats.
Import ListNotations.

(* ================================================================== *)
(** ** JavaScript strings *)

Module JSString.

(** A string value: UTF-16 code units, each below [0x10000]. *)
Definition jsstring := list N.

(** *** Writing literals

    The source file is UTF-8; a literal of this development holds the same
    bytes.  [js] decodes them to code points and re-encodes them as UTF-16,
    which is what the engine stores for the literal. *)

Definition utf8_step (st : list N * N * nat) (b : N) : list N * N * nat :=
  let '(done, cp, pending) := st in
  match pending with
  | O =>
      if (b <? 0x80)%N then (b :: done, 0%N, O)
      else if (b <? 0xE0)%N then (done, N.land b 0x1F, 1%nat)
      else if (b <? 0xF0)%N then (done, N.land b 0x0F, 2%nat)
      else (done, N.land b 0x07, 3%nat)
  | S k =>
      let cp' := (cp * 64 + N.land b 0x3F)%N in
      match k with
      | O => (cp' :: done, 0%N, O)
      | S _ => (done, cp', k)
      end
  end.

Definition code_points (s : string) : list N :=
  let bytes := map N_of_ascii (list_ascii_of_string s) in
  let '(done, _, _) := fold_left utf8_step bytes ([], 0%N, O) in
  rev done.

Definition utf16 (cp : N) : list N :=
  if (cp <? 0x10000)%N then [cp]
  else
    let v := (cp - 0x10000)%N in
    [(0xD800 + N.shiftr v 10)%N; (0xDC00 + N.land v 0x3FF)%N].

Definition js (s : string) : jsstring := flat_map utf16 (code_points s).

(** *** Operations of [String.prototype] used by the server *)

Fixpoint eqb (s t : jsstring) : bool :=
  match s, t with
  | [], [] => true
  | a :: s', b :: t' => (a =? b)%N && eqb s' t'
  | _, _ => false
  end.

(** [s.startsWith(p)] *)
Fixpoint starts_with (p s : jsstring) : bool :=
  match p, s with
  | [], _ => true
  | _ :: _, [] => false
  | a :: p', b :: s' => (a =? b)%N && starts_with p' s'
  end.

(** [s.includes(p)] *)
Fixpoint includes (p s : jsstring) : bool :=
  starts_with p s ||
  match s with
  | [] => false
  | _ :: s' => includes p s'
  end.

(** [s.replace(p, r)] with a string pattern: the first occurrence only. *)
Fixpoint replace (p r s : jsstring) : jsstring :=
  if starts_with p s then r ++ skipn (List.length p) s
  else
    match s with
    | [] => []
    | c :: s' => c :: replace p r s'
    end.

(** WhiteSpace and LineTerminator code units, the set [trim] strips. *)
Definition is_space (c : N) : bool :=
  ((c =? 0x09) || (c =? 0x0A) || (c =? 0x0B) || (c =? 0x0C) || (c =? 0x0D)
   || (c =? 0x20) || (c =? 0xA0) || (c =? 0x1680)
   || ((0x2000 <=? c) && (c <=? 0x200A))
   || (c =? 0x2028) || (c =? 0x2029) || (c =? 0x202F) || (c =? 0x205F)
   || (c =? 0x3000) || (c =? 0xFEFF))%N.

Fixpoint trim_start (s : jsstring) : jsstring :=
  match s with
  | c :: s' => if is_space c then trim_start s' else s
  | [] => []
  end.

Definition trim_end (s : jsstring) : jsstring := rev (trim_start (rev s)).

(** [s.trim()] *)
Definition trim (s : jsstring) : jsstring := trim_end (trim_start s).

(** [a.join(sep)] on an array of strings *)
Fixpoint join (sep : jsstring) (l : list jsstring) : jsstring :=
  match l with
  | [] => []
  | [s] => s
  | s :: l' => s ++ sep ++ join sep l'
  end.

End JSString.
Import JSString.

Declare Scope js_scope.
Delimit Scope js_scope with js.
Bind Scope js_scope with jsstring.
Infix "+++" := (@app N) (at level 60, right associativity) : js_scope.


(* ================================================================== *)
(** ** JavaScript numbers (IEEE-754 binary64) *)

Module JSNumber.

(** The Number with the integer value [n]; exact for [|n| < 2^53]. *)
Definition of_Z (n : Z) : float :=
  match n with
  | Z0 => PrimFloat.zero
  | Zpos _ => PrimFloat.of_uint63 (Uint63.of_Z n)
  | Zneg p => PrimFloat.opp (PrimFloat.of_uint63 (Uint63.of_Z (Zpos p)))
  end.

(** [a.length] as a Number. *)
Definition of_nat (n : nat) : float := of_Z (Z.of_nat n).

(** ToBoolean on a Number: false exactly for NaN, +0 and -0. *)
Definition truthy (x : float) : bool :=
  negb (PrimFloat.is_nan x || PrimFloat.is_zero x).

(** [x || d] on Numbers. *)
Definition or_else (x d : float) : float := if truthy x then x else d.

(** [Math.round]: the integer closest to [x], ties towards +Infinity; NaN,
    the infinities and the zeros are returned as they are, and an argument
    in [-0.5, 0) gives -0.  A finite [x] is [(-1)^s * m * 2^e]. *)
Definition Math_round (x : float) : float :=
  match Prim2SF x with
  | S754_finite s m e =>
      if (0 <=? e)%Z then x
      else
        let d := Z.pow 2 (- e) in
        let v := if s then Zneg m else Zpos m in
        let n := ((2 * v + d) / (2 * d))%Z in
        if (n =? 0)%Z then (if s then PrimFloat.neg_zero else PrimFloat.zero)
        else of_Z n
  | _ => x
  end.

(** [Math.max] of two arguments: NaN if either is NaN, and +0 above -0. *)
Definition Math_max (a b : float) : float :=
  if PrimFloat.is_nan a || PrimFloat.is_nan b then PrimFloat.nan
  else if (a <? b)%float then b
  else if (b <? a)%float then a
  else if PrimFloat.get_sign a then b else a.

End JSNumber.
Import JSNumber.

(* ================================================================== *)
(** ** Arrays *)

(** [Array.prototype.filter]: the elements are visited by ascending index and
    the kept ones appended to a fresh array. *)
Definition js_filter {A : Type} (keep : A -> bool) (a : list A) : list A :=
  fold_left (fun kept x => if keep x then kept ++ [x] else kept) a [].

(** [a.length || d]: an array length is an integer, falsy exactly when 0. *)
Definition length_or (n d : nat) : nat :=
  match n with
  | O => d
  | S _ => n
  end.

(** [Array.prototype.reduce] with an initial value. *)
Definition js_reduce {A B : Type} (f : B -> A -> B) (a : list A) (init : B) : B :=
  fold_left f a init.

(* ================================================================== *)
(** ** Regular expressions

    The fragment of the pattern language that [extract] builds: literal
    characters, the lazy [[\s\S]*?], a lookahead over alternatives and [$].
    The expression has no [u] flag, so it runs over code units, and no [m]
    flag, so [$] is the end of the input. *)

Module RegExp.

#[local] Unset Elimination Schemes.
Inductive regex : Type :=
| Chars (s : jsstring)
| AnyLazy
| Ahead (alts : list regex)
| EndOfInput
| Seq (r1 r2 : regex).
#[local] Set Elimination Schemes.

(** Backtracking matcher in continuation-passing style: [run r s k] matches
    [r] at the head of [s] and hands the rest of the input to [k]; the first
    success in the engine's order of attempts wins. *)
Fixpoint run (r : regex) (s : jsstring) (k : jsstring -> option jsstring)
  : option jsstring :=
  match r with
  | Chars p => if starts_with p s then k (skipn (List.length p) s) else None
  | AnyLazy =>
      (fix shortest (s : jsstring) : option jsstring :=
         match k s with
         | Some t => Some t
         | None =>
             match s with
             | [] => None
             | _ :: s' => shortest s'
             end
         end) s
  | Ahead alts =>
      if existsb (fun a => match run a s Some with
                           | Some _ => true
                           | None => false
                           end) alts
      then k s else None
  | EndOfInput =>
      match s with
      | [] => k s
      | _ :: _ => None
      end
  | Seq r1 r2 => run r1 s (fun t => run r2 t k)
  end.

(** [s.match(r)[0]] for a non-global [r]: the text matched at the leftmost
    position where a match exists, [None] for a [null] result. *)
Fixpoint exec (r : regex) (s : jsstring) : option jsstring :=
  match run r s Some with
  | Some t => Some (firstn (List.length s - List.length t) s)
  | None =>
      match s with
      | [] => None
      | _ :: s' => exec r s'
      end
  end.

End RegExp.
Import RegExp.

(* ================================================================== *)
(** ** The language built-ins and the collaborators *)

(** Built-ins taken as given: [Number(s)] on a string, the string of a
    Number in a template literal, and [new Date(s).getTime()] (NaN for an
    invalid date). *)
Class Engine : Type := {
  StringToNumber : jsstring -> float;
  NumberToString : float -> jsstring;
  DateParse : jsstring -> float
}.

(** A row of the sheet: [r.rowIndex] and [r.get(key)], a string or
    [undefined]. *)
Record Row : Type := {
  rowIndex : Z;
  get : string -> option jsstring
}.

(** [Number(v)] on a cell. *)
Definition ToNumber {E : Engine} (v : option jsstring) : float :=
  match v with
  | None => PrimFloat.nan
  | Some s => StringToNumber s
  end.

(** A cell that is missing or whose text is not a number: [Number] gives
    NaN for both. *)
Definition not_numeric {E : Engine} (v : option jsstring) : bool :=
  PrimFloat.is_nan (ToNumber v).

(** A cell inside a template literal. *)
Definition ToString (v : option jsstring) : jsstring :=
  match v with
  | None => js "undefined"
  | Some s => s
  end.

(** ToBoolean on a cell: false for [undefined] and for the empty string. *)
Definition present (v : option jsstring) : bool :=
  match v with
  | Some (_ :: _) => true
  | _ => false
  end.

(** [v || d] on a cell. *)
Definition cell_or (v : option jsstring) (d : jsstring) : jsstring :=
  if present v then ToString v else d.

(** A thrown error, read through [err.message]. *)
Record Error : Type := { message : jsstring }.

(** What a handler does to the outside, in order. *)
Inductive Event : Type :=
| ReadRows
| ReadClock
| GenerateContent (prompt : jsstring)
| ConsoleError (label msg : jsstring).

(** The prompts sent to the model, in order. *)
Fixpoint model_calls (tr : list Event) : list jsstring :=
  match tr with
  | [] => []
  | GenerateContent prompt :: tr' => prompt :: model_calls tr'
  | _ :: tr' => model_calls tr'
  end.

(** The outside of a request: what [loadSheet] and [getRows] give, the
    successive readings of [new Date().getTime()], and the [genAI] handle
    ([None] when it is [undefined]) with the outcome of
    [generateContent(prompt)] followed by [response.text()]. *)
Record World : Type := {
  sheet_rows : Error + list Row;
  clock : nat -> float;
  genAI : option (jsstring -> Error + jsstring)
}.

(** Handler state: clock readings taken so far and the events, oldest first. *)
Record State : Type := {
  ticks : nat;
  trace : list Event
}.

Definition start : State := {| ticks := 0; trace := [] |}.

(** Computations that may throw. *)
Definition M (A : Type) : Type := State -> (Error + A) * State.

Definition ret {A : Type} (a : A) : M A := fun st => (inr a, st).

Definition bind {A B : Type} (m : M A) (k : A -> M B) : M B :=
  fun st =>
    match m st with
    | (inl err, st') => (inl err, st')
    | (inr a, st') => k a st'
    end.

Definition throw {A : Type} (err : Error) : M A := fun st => (inl err, st).

(** [try { body } catch (err) { handler }] *)
Definition try_catch {A : Type} (body : M A) (handler : Error -> M A) : M A :=
  fun st =>
    match body st with
    | (inl err, st') => handler err st'
    | (inr a, st') => (inr a, st')
    end.

Definition emit (e : Event) : M unit :=
  fun st => (inr tt, {| ticks := ticks st; trace := trace st ++ [e] |}).

Notation "x <- m ;; k" := (bind m (fun x => k))
  (at level 61, m at next level, right associativity).
Notation "m ;;; k" := (bind m (fun _ => k))
  (at level 61, right associativity).

(** [rows.map(f)] with a callback that has effects. *)
Fixpoint mapM {A B : Type} (f : A -> M B) (l : list A) : M (list B) :=
  match l with
  | [] => ret []
  | x :: l' => y <- f x ;; ys <- mapM f l' ;; ret (y :: ys)
  end.

(** [const sheet = await loadSheet(); const rows = await sheet.getRows();] *)
Definition read_rows (W : World) : M (list Row) :=
  emit ReadRows ;;;
  match sheet_rows W with
  | inl err => throw err
  | inr rows => ret rows
  end.

(** [new Date().getTime()] *)
Definition now (W : World) : M float :=
  fun st =>
    (inr (clock W (ticks st)),
     {| ticks := S (ticks st); trace := trace st ++ [ReadClock] |}).

(** [(await model.generateContent(prompt)).response.text()] *)
Definition generate (model : jsstring -> Error + jsstring) (prompt : jsstring)
  : M jsstring :=
  emit (GenerateContent prompt) ;;;
  match model prompt with
  | inl err => throw err
  | inr text => ret text
  end.

(** [console.error(label, err.message)] *)
Definition console_error (label msg : jsstring) : M unit :=
  emit (ConsoleError label msg).

(* ================================================================== *)
(** ** GET /api/items: the items map *)

Module ApiItems.

Record item : Type := {
  id : Z;
  name : option jsstring;
  price : float;
  weight : jsstring;
  expiry : option jsstring;
  remaining : float;
  averageDays : float;
  shelfLife : float
}.

Section WithEngine.
Context {E : Engine}.

Definition item_of_row (r : Row) : item :=
  {| id := rowIndex r;
     name := get r "name";
     price := or_else (ToNumber (get r "price")) 0;
     weight := cell_or (get r "weight") (js "未標示");
     expiry := get r "expiry";
     remaining := or_else (ToNumber (get r "remaining")) 0;
     averageDays := or_else (ToNumber (get r "averageDays")) 3;
     shelfLife := or_else (ToNumber (get r "shelfLife")) 7 |}.

Definition items (rows : list Row) : list item := map item_of_row rows.

End WithEngine.
End ApiItems.

(* ================================================================== *)
(** ** POST /api/ask-ai: general advice *)

Module AskAI.

Record item : Type := {
  name : option jsstring;
  price : float;
  weight : jsstring;
  expiry : jsstring;
  remaining : float;
  shelfLife : float
}.

(** The JSON body sent back. *)
Record response : Type := { answer : jsstring }.

Section WithEngine.
Context {E : Engine}.

Definition item_of_row (r : Row) : item :=
  {| name := get r "name";
     price := or_else (ToNumber (get r "price")) 0;
     weight := cell_or (get r "weight") [];
     expiry := cell_or (get r "expiry") [];
     remaining := or_else (ToNumber (get r "remaining")) 0;
     shelfLife := or_else (ToNumber (get r "shelfLife")) 7 |}.

(** One line of the no-model answer. *)
Definition demo_line (i : item) : jsstring :=
  js "- " ++ ToString (name i) ++ js "（剩 "
  ++ NumberToString (remaining i) ++ js "%）".

Definition demo_answer (inventory : list item) : jsstring :=
  js "⚠️ 尚未設定 GEMINI_API_KEY，目前為示意模式。
" ++ js "你的冰箱目前有：
" ++ join (js "
") (map demo_line inventory)
  ++ js "
你可以先把剩餘量低或快過期的食材排進這幾天的料理。".

(** One line of the inventory block of the prompt. *)
Definition prompt_line (i : item) : jsstring :=
  js "- " ++ ToString (name i) ++ js "：剩 "
  ++ NumberToString (remaining i) ++ js "%｜耐放約 "
  ++ NumberToString (shelfLife i) ++ js " 天｜到期日 "
  ++ (match expiry i with [] => js "未填" | e => e end)
  ++ js "｜單價約 $" ++ NumberToString (price i).

Definition prompt (question : option jsstring) (inventory : list item)
  : jsstring :=
  js "
你是一位友善但精準的冰箱料理顧問，必須「直接根據冰箱現有食材」給建議。
請用繁體中文回答，條列清楚，不要再叫使用者提供冰箱內容，也不要反問問題。

【使用者提問】
" ++ ToString question ++ js "

【冰箱庫存】
" ++ join (js "
") (map prompt_line inventory) ++ js "

請依照下面原則回答：
1. 如果問題是要規劃菜單或食譜，請直接根據上面的庫存，給出具體料理建議（可以列出 3～5 道菜，說明主要食材）。
2. 優先使用「剩餘量低或耐放天數少」的食材。
3. 回答要簡短實用，不要廢話，不要客套，也不要再問使用者問題。
".

Definition offline_answer : jsstring :=
  js "AI 暫時無法連線，但你可以先把剩餘量低或快過期的食材排進這幾天的菜單。".

(** The handler; [question] is [req.body.question]. *)
Definition ask_ai (W : World) (question : option jsstring) : M response :=
  try_catch
    (rows <- read_rows W ;;
     let inventory := map item_of_row rows in
     match genAI W with
     | None => ret {| answer := demo_answer inventory |}
     | Some model =>
         text <- generate model (prompt question inventory) ;;
         ret {| answer := text |}
     end)
    (fun err =>
       console_error (js "❌ /api/ask-ai 錯誤:") (message err) ;;;
       ret {| answer := offline_answer |}).

End WithEngine.
End AskAI.

(* ================================================================== *)
(** ** POST /api/smart-suggest: the weekly plan *)

Module SmartSuggest.

Record item : Type := {
  name : option jsstring;
  price : float;
  remaining : float;
  shelfLife : float;
  averageDays : float
}.

(** The JSON body sent back; a key the object literal does not have is
    [None]. *)
Record response : Type := {
  answer : jsstring;
  weekMenu : option jsstring;
  purchaseList : option jsstring;
  reminders : option jsstring;
  urgent : list item;
  totalValue : float;
  avgDays : float
}.

(** *** The section parser *)

Definition CALENDAR : jsstring := js "📅".
Definition RECEIPT : jsstring := js "🧾".
Definition BULB : jsstring := js "💡".

(** The string [`📅 ${title}`] that [extract] searches and then removes. *)
Definition search_string (title : jsstring) : jsstring := js "📅 " ++ title.

(** [new RegExp(`📅 ${title}[\\s\\S]*?(?=📅|🧾|💡|$)`)], for a [title] without
    pattern characters (the three titles passed have none). *)
Definition section_regex (title : jsstring) : regex :=
  Seq (Chars (search_string title))
      (Seq AnyLazy
           (Ahead [Chars CALENDAR; Chars RECEIPT; Chars BULB; EndOfInput])).

Definition extract (answer title : jsstring) : jsstring :=
  match exec (section_regex title) answer with
  | Some m0 => trim (replace (search_string title) [] m0)
  | None => []
  end.

Definition title_weekMenu : jsstring := js "一週菜單建議".
Definition title_purchaseList : jsstring := js "建議採購清單".
Definition title_reminders : jsstring := js "保存與料理提醒".

(** *** What the parser computes, said directly

    [after_first p s] is the text after the leftmost occurrence of [p] in
    [s]; a section ends where the input ends or one of the three pictographs
    starts ([at_boundary]); [until_boundary s] is the part of [s] before the
    first such place and [from_boundary s] the part from it on. *)

Fixpoint after_first (p s : jsstring) : option jsstring :=
  if starts_with p s then Some (skipn (List.length p) s)
  else
    match s with
    | [] => None
    | _ :: s' => after_first p s'
    end.

Definition at_boundary (s : jsstring) : bool :=
  starts_with CALENDAR s || starts_with RECEIPT s || starts_with BULB s
  || match s with [] => true | _ :: _ => false end.

Fixpoint until_boundary (s : jsstring) : jsstring :=
  if at_boundary s then []
  else
    match s with
    | [] => []
    | c :: s' => c :: until_boundary s'
    end.

Fixpoint from_boundary (s : jsstring) : jsstring :=
  if at_boundary s then s
  else
    match s with
    | [] => []
    | _ :: s' => from_boundary s'
    end.

(** *** Metrics *)

Definition is_urgent (i : item) : bool :=
  (remaining i <? 40)%float || (shelfLife i <? 5)%float.

Definition urgent_of (inventory : list item) : list item :=
  js_filter is_urgent inventory.

Definition avgDays_of (inventory : list item) : float :=
  Math_round
    (js_reduce (fun a b => a + averageDays b)%float inventory 0%float
     / of_nat (length_or (List.length inventory) 1))%float.

Definition totalValue_of (inventory : list item) : float :=
  js_reduce (fun sum i => sum + price i)%float inventory 0%float.

(** The mean of [averageDays] as the specification words it: the sum over
    all items divided by their number, the divisor being 1 when there is
    no item. *)
Definition mean_averageDays (inventory : list item) : float :=
  (fold_left (fun acc i => acc + averageDays i) inventory 0
   / match inventory with
     | [] => 1
     | _ :: _ => of_nat (List.length inventory)
     end)%float.

Section WithEngine.
Context {E : Engine}.

(** *** The inventory map *)

(** [let shelfLife = Number(r.get('shelfLife')) || 7] *)
Definition stored_shelfLife (r : Row) : float :=
  or_else (ToNumber (get r "shelfLife")) 7.

(** The value assigned inside [if (expiry)], at the clock reading [t]. *)
Definition fresh_shelfLife (expiry : option jsstring) (t : float) : float :=
  let diff :=
    ((DateParse (ToString expiry) - t) / (1000 * 60 * 60 * 24))%float in
  Math_max 1 (Math_round diff).

Definition item_of_row (W : World) (r : Row) : M item :=
  let expiry := get r "expiry" in
  let shelfLife0 := stored_shelfLife r in
  shelfLife1 <-
    (if present expiry
     then (t <- now W ;; ret (fresh_shelfLife expiry t))
     else ret shelfLife0) ;;
  ret {| name := get r "name";
         price := or_else (ToNumber (get r "price")) 0;
         remaining := or_else (ToNumber (get r "remaining")) 0;
         shelfLife := shelfLife1;
         averageDays := or_else (ToNumber (get r "averageDays")) 3 |}.

(** *** What the inventory map computes, said directly

    [item_at W r k] is the item of row [r] when [k] readings of the clock
    were taken before it, [inventory_at W k rows] the items of [rows] in
    order, and [dated rows] the number of rows with an expiry, each of which
    reads the clock once. *)

Definition item_at (W : World) (r : Row) (k : nat) : item :=
  {| name := get r "name";
     price := or_else (ToNumber (get r "price")) 0;
     remaining := or_else (ToNumber (get r "remaining")) 0;
     shelfLife :=
       if present (get r "expiry")
       then fresh_shelfLife (get r "expiry") (clock W k)
       else stored_shelfLife r;
     averageDays := or_else (ToNumber (get r "averageDays")) 3 |}.

Fixpoint inventory_at (W : World) (k : nat) (rows : list Row) : list item :=
  match rows with
  | [] => []
  | r :: rows' =>
      item_at W r k
      :: inventory_at W (if present (get r "expiry") then S k else k) rows'
  end.

Fixpoint dated (rows : list Row) : nat :=
  match rows with
  | [] => 0
  | r :: rows' =>
      if present (get r "expiry") then S (dated rows') else dated rows'
  end.

(** *** The prompt *)

Definition prompt_line (i : item) : jsstring :=
  js "- " ++ ToString (name i) ++ js "：剩"
  ++ NumberToString (remaining i) ++ js "%｜耐放"
  ++ NumberToString (shelfLife i) ++ js "天｜價格$"
  ++ NumberToString (price i).

Definition prompt_tail : jsstring :=
  js "

請輸出以下三部分（保持標題一致）：
📅 一週菜單建議（以 Markdown 表格呈現，7天×午餐/晚餐）
🧾 建議採購清單（含數量與單位）
💡 保存與料理提醒（3 行以內）
".

Definition prompt (goal capacity : option jsstring) (inventory : list item)
  : jsstring :=
  js "
你是一位專業的「智慧冰箱菜單顧問」，請用繁體中文、條列＋表格清楚回答，不要多餘對話。

【使用者偏好】
" ++ cell_or goal (js "未指定，請規劃均衡多樣菜色") ++ js "

【冰箱容量】
目前使用：" ++ cell_or capacity (js "未知")
  ++ js " 格。請確保不超過容量，並優先處理快過期食材。

【庫存狀況】
" ++ join (js "
") (map prompt_line inventory) ++ prompt_tail.

(** *** The handler *)

Definition no_model_answer : jsstring :=
  js "⚠️ 尚未連上 Gemini，請根據剩餘量與保鮮期自行安排料理優先順序。".

Definition offline_answer : jsstring :=
  js "AI 顧問暫時離線，但你可以先將快過期食材優先使用。".

Definition apology : jsstring :=
  js "智慧菜單規劃暫時出錯，但庫存資料仍可用，請稍後再試。".

(** [goal] and [capacity] are the two keys read from [req.body]. *)
Definition smart_suggest (W : World) (goal capacity : option jsstring)
  : M response :=
  try_catch
    (rows <- read_rows W ;;
     inventory <- mapM (item_of_row W) rows ;;
     let urgent := urgent_of inventory in
     let avgDays := avgDays_of inventory in
     let totalValue := totalValue_of inventory in
     match genAI W with
     | None =>
         ret {| answer := no_model_answer;
                weekMenu := None;
                purchaseList := None;
                reminders := None;
                urgent := urgent;
                totalValue := totalValue;
                avgDays := avgDays |}
     | Some model =>
         let prompt := prompt goal capacity inventory in
         answer <-
           try_catch
             (generate model prompt)
             (fun err =>
                console_error (js "⚠️ Gemini 產生內容失敗:") (message err) ;;;
                ret offline_answer) ;;
         let weekMenu := extract answer title_weekMenu in
         let purchaseList := extract answer title_purchaseList in
         let reminders := extract answer title_reminders in
         ret {| answer := answer;
                weekMenu := Some weekMenu;
                purchaseList := Some purchaseList;
                reminders := Some reminders;
                urgent := urgent;
                totalValue := totalValue;
                avgDays := avgDays |}
     end)
    (fun err =>
       console_error (js "❌ /api/smart-suggest 錯誤:") (message err) ;;;
       ret {| answer := apology;
              weekMenu := None;
              purchaseList := None;
              reminders := None;
              urgent := [];
              totalValue := 0;
              avgDays := 0 |}).

End WithEngine.

(** *** The section headings the prompt asks the model to keep *)

Definition heading_weekMenu : jsstring := js "📅 一週菜單建議".
Definition heading_purchaseList : jsstring := js "🧾 建議採購清單".
Definition heading_reminders : jsstring := js "💡 保存與料理提醒".

End SmartSuggest.

(* ================================================================== *)
(** ** A small engine and world for running the handlers

    [Sample] fixes the built-ins on the inputs the examples use: strings of
    decimal digits (and the empty string, which [Number] reads as 0),
    integral Numbers, and three ISO dates.  On every other input its values
    are NaN, respectively the text of NaN, and no example relies on them. *)

Module Sample.

Definition digit (c : N) : option Z :=
  if ((0x30 <=? c) && (c <=? 0x39))%N then Some (Z.of_N (c - 0x30)) else None.

Fixpoint digits (acc : Z) (s : jsstring) : option Z :=
  match s with
  | [] => Some acc
  | c :: s' =>
      match digit c with
      | Some d => digits (10 * acc + d) s'
      | None => None
      end
  end.

Definition string_to_number (s : jsstring) : float :=
  match digits 0 s with
  | Some n => of_Z n
  | None => PrimFloat.nan
  end.

(** The integer a Number holds, if it holds one. *)
Definition integer_of (x : float) : option Z :=
  match Prim2SF x with
  | S754_zero _ => Some 0%Z
  | S754_finite s m e =>
      let v := if s then Zneg m else Zpos m in
      if (0 <=? e)%Z then Some (v * 2 ^ e)%Z
      else if (Z.land (Zpos m) (2 ^ (- e) - 1) =? 0)%Z
           then Some (v / 2 ^ (- e))%Z
           else None
  | _ => None
  end.

Fixpoint decimal (fuel : nat) (n : Z) (acc : jsstring) : jsstring :=
  match fuel with
  | O => acc
  | S fuel' =>
      let acc' := (0x30 + Z.to_N (n mod 10))%N :: acc in
      if (n <? 10)%Z then acc' else decimal fuel' (n / 10) acc'
  end.

Definition number_to_string (x : float) : jsstring :=
  match integer_of x with
  | Some n =>
      if (n <? 0)%Z then js "-" ++ decimal 400 (- n) [] else decimal 400 n []
  | None => js "NaN"
  end.

(** 2024-01-01T00:00:00Z, in milliseconds since the epoch. *)
Definition new_year : float := 1704067200000%float.

Definition date_parse (s : jsstring) : float :=
  if JSString.eqb s (js "2024-01-11") then 1704931200000%float
  else if JSString.eqb s (js "2024-01-03") then 1704240000000%float
  else if JSString.eqb s (js "2024-01-01T09:36:00Z") then 1704101760000%float
  else PrimFloat.nan.

Definition engine : Engine :=
  {| StringToNumber := string_to_number;
     NumberToString := number_to_string;
     DateParse := date_parse |}.

(** A row given by its cells. *)
Fixpoint lookup (cells : list (string * string)) (key : string)
  : option jsstring :=
  match cells with
  | [] => None
  | (k, v) :: cells' =>
      if String.eqb k key then Some (js v) else lookup cells' key
  end.

Definition row (n : Z) (cells : list (string * string)) : Row :=
  {| rowIndex := n; get := lookup cells |}.

Definition milk : Row :=
  row 2 [("name", "Milk"); ("price", "65"); ("expiry", "2024-01-11");
         ("remaining", "20"); ("averageDays", "4"); ("shelfLife", "30")]%string.

Definition eggs : Row :=
  row 3 [("name", "Eggs"); ("remaining", "80"); ("shelfLife", "0");
         ("averageDays", "x")]%string.

Definition tofu : Row :=
  row 4 [("name", "Tofu"); ("expiry", "2024-01-03")]%string.

Definition leftovers : Row :=
  row 5 [("name", "Leftovers"); ("expiry", "2024-01-01T09:36:00Z");
         ("remaining", "90"); ("shelfLife", "3")]%string.

Definition failure : Error := {| message := js "quota exceeded" |}.

(** Rows load, the clock stands at [new_year], no model handle. *)
Definition world_no_model : World :=
  {| sheet_rows := inr [milk; eggs; tofu];
     clock := fun _ => new_year;
     genAI := None |}.

(** Rows load and the model throws. *)
Definition world_model_fails : World :=
  {| sheet_rows := inr [milk; eggs; tofu];
     clock := fun _ => new_year;
     genAI := Some (fun _ => inl failure) |}.

(** The row store cannot be read. *)
Definition world_no_rows : World :=
  {| sheet_rows := inl {| message := js "socket hang up" |};
     clock := fun _ => new_year;
     genAI := Some (fun _ => inr (js "ok")) |}.

(** An empty sheet, no model handle. *)
Definition world_empty : World :=
  {| sheet_rows := inr [];
     clock := fun _ => new_year;
     genAI := None |}.

(** A reply that keeps the three headings of the prompt. *)
Definition reply_with_headings : jsstring :=
  js "📅 一週菜單建議
A
🧾 建議採購清單
B
💡 保存與料理提醒
C".

Definition world_model_replies : World :=
  {| sheet_rows := inr [milk; eggs; tofu];
     clock := fun _ => new_year;
     genAI := Some (fun _ => inr reply_with_headings) |}.

End Sample.

(* ================================================================== *)
(** ** The service-account key

    [(process.env.GOOGLE_PRIVATE_KEY || '').replace(/\\n/g, '\n')]: every
    backslash followed by the letter n becomes a line feed, scanning from
    the left and resuming after each replaced pair. *)

Module Config.

Definition BACKSLASH : N := 0x5C.
Definition LETTER_N : N := 0x6E.
Definition LINE_FEED : N := 0x0A.

(** The two characters the pattern [/\\n/] matches. *)
Definition ESCAPED : jsstring := [BACKSLASH; LETTER_N].

(** [s.replace(/\\n/g, '\n')] *)
Fixpoint unescape_newlines (s : jsstring) : jsstring :=
  match s with
  | [] => []
  | c :: s' =>
      match s' with
      | d :: s'' =>
          if ((c =? BACKSLASH) && (d =? LETTER_N))%N
          then LINE_FEED :: unescape_newlines s''
          else c :: unescape_newlines s'
      | [] => [c]
      end
  end.

(** The [key] handed to the JWT client; [env] is the environment variable,
    [None] when it is not set. *)
Definition private_key (env : option jsstring) : jsstring :=
  unescape_newlines (cell_or env []).

End Config.

(* ================================================================== *)
(** ** Request bodies

    [express.json()] gives the handlers a parsed JSON document; a key the
    document does not have reads as [undefined]. *)

Module JSON.

#[local] Unset Elimination Schemes.
Inductive value : Type :=
| Undefined
| Null
| Bool (b : bool)
| Num (x : float)
| Str (s : jsstring)
| Arr (elements : list value)
| Obj (members : list (jsstring * value)).
#[local] Set Elimination Schemes.



End JSON.

(** [Array.prototype.find]: the first element, by ascending index, that the
    callback accepts; [None] for [undefined]. *)
Fixpoint js_find {A : Type} (accept : A -> bool) (a : list A) : option A :=
  match a with
  | [] => None
  | x :: a' => if accept x then Some x else js_find accept a'
  end.

(* ================================================================== *)
(** ** The row-store routes: GET /api/items, POST /api/item and
    PUT /api/update-item/:id *)

Module Store.

(** What these handlers do to the outside, in order. *)
Inductive Event : Type :=
| LoadSheet
| GetRows
| AddRow (fields : list (string * JSON.value))
| RowSet (index : Z) (key : string) (v : JSON.value)
| RowSave (index : Z)
| ConsoleError (label msg : jsstring).

(** The sheet behind a request: whether [loadSheet] throws, what [getRows]
    gives, and whether [addRow] and [row.save] throw. *)
Record Backend : Type := {
  load_sheet : option Error;
  get_rows : Error + list Row;
  add_row : list (string * JSON.value) -> option Error;
  save_row : Z -> JSON.value -> option Error
}.

(** Computations that may throw, logging their events (oldest first). *)
Definition S (A : Type) : Type := list Event -> (Error + A) * list Event.

Definition ret {A : Type} (a : A) : S A := fun tr => (inr a, tr).

Definition bind {A B : Type} (m : S A) (k : A -> S B) : S B :=
  fun tr =>
    match m tr with
    | (inl err, tr') => (inl err, tr')
    | (inr a, tr') => k a tr'
    end.

(** [try { body } catch (err) { handler }] *)
Definition try_catch {A : Type} (body : S A) (handler : Error -> S A) : S A :=
  fun tr =>
    match body tr with
    | (inl err, tr') => handler err tr'
    | (inr a, tr') => (inr a, tr')
    end.

(** An effect that is logged and then throws or not. *)
Definition perform (e : Event) (outcome : option Error) : S unit :=
  fun tr =>
    match outcome with
    | Some err => (inl err, tr ++ [e])
    | None => (inr tt, tr ++ [e])
    end.

Notation "x <-- m ;; k" := (bind m (fun x => k))
  (at level 61, m at next level, right associativity).
Notation "m ;;;; k" := (bind m (fun _ => k))
  (at level 61, right associativity).

(** [await loadSheet()] *)
Definition loadSheet (B : Backend) : S unit := perform LoadSheet (load_sheet B).

(** [await sheet.getRows()] *)
Definition getRows (B : Backend) : S (list Row) :=
  fun tr =>
    match get_rows B with
    | inl err => (inl err, tr ++ [GetRows])
    | inr rows => (inr rows, tr ++ [GetRows])
    end.

Definition console_error (label msg : jsstring) : S unit :=
  perform (ConsoleError label msg) None.

(** What [res.json] sends. *)
Inductive payload : Type :=
| Items (items : list ApiItems.item)
| Message (message : jsstring)
| Failure (error : jsstring).

(** A response: the status ([200] unless [res.status] was called) and the
    JSON body. *)
Record sent : Type := {
  status : nat;
  body : payload
}.

Section WithEngine.
Context {E : Engine}.




(** [r.rowIndex == id] with a Number on the left and a string on the right:
    the string is converted by [Number] and the two are compared as
    Numbers. *)
Definition index_matches (id : jsstring) (r : Row) : bool :=
  (of_Z (rowIndex r) =? StringToNumber id)%float.

(** PUT /api/update-item/:id; [id] is [req.params.id]. *)
Definition put_update_item (B : Backend) (id : jsstring)
    (req_body : string -> JSON.value) : S sent :=
  try_catch
    (loadSheet B ;;;;
     rows <-- getRows B ;;
     match js_find (index_matches id) rows with
     | None =>
         ret {| status := 404; body := Failure (js "找不到該筆資料") |}
     | Some row =>
         perform (RowSet (rowIndex row) "remaining"
                    (req_body "remaining"%string))
           None ;;;;
         perform (RowSave (rowIndex row))
           (save_row B (rowIndex row) (req_body "remaining"%string)) ;;;;
         ret {| status := 200; body := Message (js "✅ 更新成功") |}
     end)
    (fun err =>
       console_error (js "❌ /api/update-item 錯誤:") (message err) ;;;;
       ret {| status := 500; body := Failure (message err) |}).

End WithEngine.


End Store.

(** A sheet with the three sample rows on which nothing throws, and a body
    for the two writing routes. *)
Module StoreSample.

Definition backend : Store.Backend :=
  {| Store.load_sheet := None;
     Store.get_rows := inr [Sample.milk; Sample.eggs; Sample.tofu];
     Store.add_row := fun _ => None;
     Store.save_row := fun _ _ => None |}.

Definition unreachable : Store.Backend :=
  {| Store.load_sheet := Some {| message := js "socket hang up" |};
     Store.get_rows := inr [];
     Store.add_row := fun _ => None;
     Store.save_row := fun _ _ => None |}.

(** [{ name: "Rice", remaining: 0 }] *)
Definition rice (key : string) : JSON.value :=
  if String.eqb key "name" then JSON.Str (js "Rice")
  else if String.eqb key "remaining" then JSON.Num 0
  else JSON.Undefined.

(** A service-account key as it is pasted into an environment variable. *)
Definition pasted_key : jsstring := js "-----BEGIN-----\nMIIE\n-----END-----\n".

End StoreSample.

(** Two more rows and a later clock: a jar whose expiry is not a date, and
    the sample rows seen on 11 January, after the tofu has expired. *)
Module MoreSamples.

Definition jam : Row :=
  Sample.row 6 [("name", "Jam"); ("expiry", "soon"); ("remaining", "90")]%string.

Definition world_later : World :=
  {| sheet_rows := inr [Sample.milk; Sample.eggs; Sample.tofu];
     clock := fun _ => 1704931200000%float;
     genAI := None |}.

End MoreSamples.

(* ================================================================== *)
(** ** Vocabulary of the further properties *)

(** Whether a string has no white space at either end. *)
Definition trimmed (s : jsstring) : bool :=
  match s with
  | [] => true
  | c :: _ => negb (is_space c) && negb (is_space (last s c))
  end.

(** A binary64 value that is a zero, negative or minus infinity. *)
Definition not_above_zero (f : spec_float) : bool :=
  match f with
  | S754_zero _ => true
  | S754_infinity s => s
  | S754_finite s _ _ => s
  | S754_nan => false
  end.

(** A binary64 value other than NaN whose sign bit is [s]. *)
Definition has_sign (s : bool) (f : spec_float) : bool :=
  match f with
  | S754_zero s' | S754_infinity s' | S754_finite s' _ _ => Bool.eqb s' s
  | S754_nan => false
  end.

(* ================================================================== *)
(** * Properties *)

(** ** Strings *)

Section StringFacts.

Lemma starts_with_app (p s : jsstring) : starts_with p (p ++ s) = true.
Proof.
  induction p as [|a p IH]; simpl; [reflexivity|].
  now rewrite N.eqb_refl.
Qed.

Lemma starts_with_split (p s : jsstring) :
  starts_with p s = true -> s = p ++ skipn (List.length p) s.
Proof.
  revert s; induction p as [|a p IH]; intros s H; simpl in *; [reflexivity|].
  destruct s as [|b s]; [discriminate|].
  apply andb_true_iff in H as [Hab Hps].
  apply N.eqb_eq in Hab; subst b.
  simpl. f_equal. now apply IH.
Qed.

Lemma skipn_length_app (p s : jsstring) : skipn (List.length p) (p ++ s) = s.
Proof. induction p; simpl; auto. Qed.

Lemma includes_app_r (p s t : jsstring) :
  includes p t = true -> includes p (s ++ t) = true.
Proof.
  intros H; induction s as [|c s IH]; simpl; [exact H|].
  rewrite IH. apply orb_true_r.
Qed.

Lemma replace_head (p r s : jsstring) :
  starts_with p s = true -> replace p r s = r ++ skipn (List.length p) s.
Proof. intros H; destruct s; simpl in *; now rewrite H. Qed.

Lemma replace_prefix (p b : jsstring) : replace p [] (p ++ b) = b.
Proof.
  rewrite replace_head by apply starts_with_app.
  apply skipn_length_app.
Qed.

End StringFacts.

(** ** The section parser *)

Section ParserFacts.
Import SmartSuggest.

Lemma boundary_split (s : jsstring) :
  s = until_boundary s ++ from_boundary s.
Proof.
  induction s as [|c s IH]; [reflexivity|].
  cbn [until_boundary from_boundary].
  destruct (at_boundary (c :: s)); [reflexivity|].
  simpl; now f_equal.
Qed.

Lemma from_boundary_at (s : jsstring) : at_boundary (from_boundary s) = true.
Proof.
  induction s as [|c s IH]; [reflexivity|].
  cbn [from_boundary].
  destruct (at_boundary (c :: s)) eqn:B; [exact B | exact IH].
Qed.

(** No boundary falls strictly inside [until_boundary s]. *)
Lemma until_boundary_first (s : jsstring) (n : nat) :
  n < List.length (until_boundary s) -> at_boundary (skipn n s) = false.
Proof.
  revert n; induction s as [|c s IH]; intros n Hn.
  - simpl in Hn; lia.
  - cbn [until_boundary] in Hn.
    destruct (at_boundary (c :: s)) eqn:B; [simpl in Hn; lia|].
    destruct n as [|n]; [exact B|].
    simpl in *. apply IH. lia.
Qed.

(** The lookahead [(?=📅|🧾|💡|$)] succeeds exactly at a boundary and
    consumes nothing. *)
Lemma run_lookahead (s : jsstring) :
  run (Ahead [Chars CALENDAR; Chars RECEIPT; Chars BULB; EndOfInput]) s Some
  = if at_boundary s then Some s else None.
Proof.
  unfold at_boundary; cbn [run existsb].
  destruct (starts_with CALENDAR s); [reflexivity|].
  destruct (starts_with RECEIPT s); [reflexivity|].
  destruct (starts_with BULB s); [reflexivity|].
  destruct s; reflexivity.
Qed.

(** The lazy [[\s\S]*?] stops at the first boundary, which always exists. *)
Lemma run_lazy_lookahead (s : jsstring) :
  run (Seq AnyLazy
         (Ahead [Chars CALENDAR; Chars RECEIPT; Chars BULB; EndOfInput]))
      s Some
  = Some (from_boundary s).
Proof.
  pose proof run_lookahead as HA.
  set (A := Ahead [Chars CALENDAR; Chars RECEIPT; Chars BULB; EndOfInput])
    in *.
  clearbody A. cbn [run].
  induction s as [|c s IH].
  - now rewrite HA.
  - cbn [from_boundary]. rewrite HA.
    destruct (at_boundary (c :: s)); [reflexivity | exact IH].
Qed.

Lemma run_section_regex (title s : jsstring) :
  run (section_regex title) s Some
  = if starts_with (search_string title) s
    then Some (from_boundary (skipn (List.length (search_string title)) s))
    else None.
Proof.
  unfold section_regex. cbn [run].
  destruct (starts_with (search_string title) s); [|reflexivity].
  apply run_lazy_lookahead.
Qed.

Lemma exec_section_regex (title s : jsstring) :
  exec (section_regex title) s
  = match after_first (search_string title) s with
    | Some rest => Some (search_string title ++ until_boundary rest)
    | None => None
    end.
Proof.
  induction s as [|c s IH].
  - cbn [exec after_first]. rewrite run_section_regex.
    destruct (starts_with (search_string title) []) eqn:P; [|reflexivity].
    apply starts_with_split in P. discriminate P.
  - cbn [exec after_first]. rewrite run_section_regex.
    destruct (starts_with (search_string title) (c :: s)) eqn:P; [|exact IH].
    f_equal.
    set (p := search_string title) in *.
    set (rest := skipn (List.length p) (c :: s)).
    assert (Hs : c :: s = p ++ until_boundary rest ++ from_boundary rest).
    { rewrite <- boundary_split. now apply starts_with_split. }
    rewrite Hs at 1 2.
    rewrite !length_app.
    replace (List.length p + (List.length (until_boundary rest)
               + List.length (from_boundary rest))
             - List.length (from_boundary rest))
      with (List.length (p ++ until_boundary rest) + 0)
      by (rewrite length_app; lia).
    rewrite app_assoc, firstn_app_2. cbn [firstn]. apply app_nil_r.
Qed.

(** [extract] in one equation. *)
Lemma extract_eq (text title : jsstring) :
  extract text title
  = match after_first (search_string title) text with
    | Some rest => trim (until_boundary rest)
    | None => []
    end.
Proof.
  unfold extract. rewrite exec_section_regex.
  destruct (after_first (search_string title) text); [|reflexivity].
  now rewrite replace_prefix.
Qed.

Lemma after_first_none (p s : jsstring) :
  after_first p s = None <-> includes p s = false.
Proof.
  induction s as [|c s IH]; cbn [after_first includes].
  - destruct (starts_with p []); simpl; split; congruence.
  - destruct (starts_with p (c :: s)); simpl; [split; congruence | exact IH].
Qed.

(** The leftmost occurrence: [s = pre ++ p ++ rest] with no occurrence of
    [p] starting inside [pre]. *)
Lemma after_first_leftmost (p pre rest : jsstring) :
  (forall n, n < List.length pre ->
             starts_with p (skipn n (pre ++ p ++ rest)) = false) ->
  after_first p (pre ++ p ++ rest) = Some rest.
Proof.
  induction pre as [|c pre IH]; intros H.
  - simpl app. destruct (p ++ rest) eqn:Hp; cbn [after_first];
      rewrite <- Hp, starts_with_app, skipn_length_app; reflexivity.
  - cbn [app after_first].
    pose proof (H 0 ltac:(simpl; lia)) as H0.
    cbn [skipn app] in H0. rewrite H0.
    apply IH. intros n Hn. apply (H (S n)). simpl; lia.
Qed.

End ParserFacts.

Section Parser.
Import SmartSuggest.

(** The literals are stored as the engine stores them. *)
Example js_pictographs :
  CALENDAR = [0xD83D; 0xDCC5]%N /\ RECEIPT = [0xD83E; 0xDDFE]%N
  /\ BULB = [0xD83D; 0xDCA1]%N /\ js "A 一" = [0x41; 0x20; 0x4E00]%N.
Proof. repeat split; reflexivity. Qed.

(** Whatever the request and the inventory, the prompt asks for the three
    headings [heading_weekMenu], [heading_purchaseList] and
    [heading_reminders]. *)
Lemma prompt_asks_headings {E : Engine} (goal capacity : option jsstring)
    (inventory : list item) :
  includes heading_weekMenu (prompt goal capacity inventory) = true
  /\ includes heading_purchaseList (prompt goal capacity inventory) = true
  /\ includes heading_reminders (prompt goal capacity inventory) = true.
Proof.
  unfold prompt.
  repeat split; do 6 apply includes_app_r; vm_compute; reflexivity.
Qed.

(** C1 (the code departs from it).  A reply that keeps the three headings
    the prompt asks for, each followed by its own content: the week menu is
    extracted, but [extract] looks for the purchase list and the reminders
    under the calendar pictograph, which the prompt gives only to the week
    menu, so both come back empty although their headings are in the text. *)
Theorem extract_misses_prompt_headings :
  includes heading_weekMenu Sample.reply_with_headings = true
  /\ includes heading_purchaseList Sample.reply_with_headings = true
  /\ includes heading_reminders Sample.reply_with_headings = true
  /\ extract Sample.reply_with_headings title_weekMenu = js "A"
  /\ extract Sample.reply_with_headings title_purchaseList = []
  /\ extract Sample.reply_with_headings title_reminders = []
  /\ search_string title_purchaseList <> heading_purchaseList
  /\ search_string title_reminders <> heading_reminders
  /\ (exists r st,
        smart_suggest (E := Sample.engine) Sample.world_model_replies
          None None start = (inr r, st)
        /\ weekMenu r = Some (js "A")
        /\ purchaseList r = Some []
        /\ reminders r = Some []).
Proof.
  repeat match goal with |- _ /\ _ => split end;
    try (vm_compute; reflexivity); try (vm_compute; discriminate).
  destruct (smart_suggest (E := Sample.engine) Sample.world_model_replies
              None None start) as [[e|r] st] eqn:R;
    [vm_compute in R; discriminate|].
  exists r, st. split; [reflexivity|].
  assert (Hr : inr r = fst (smart_suggest (E := Sample.engine)
                 Sample.world_model_replies None None start) :> Error + response)
    by now rewrite R.
  vm_compute in Hr. injection Hr as ->.
  repeat split.
Qed.

(** C2, refuting instance.  After the week-menu heading comes a text with
    none of the three complete headings in it, only a bare bulb pictograph;
    the extracted section stops at the pictograph instead of running to the
    end of the text. *)
Lemma bare_pictograph_ends_section :
  includes heading_weekMenu (js " Mon 💡 soup") = false
  /\ includes heading_purchaseList (js " Mon 💡 soup") = false
  /\ includes heading_reminders (js " Mon 💡 soup") = false
  /\ extract (heading_weekMenu ++ js " Mon 💡 soup") title_weekMenu = js "Mon"
  /\ trim (js " Mon 💡 soup") = js "Mon 💡 soup"
  /\ js "Mon" <> js "Mon 💡 soup".
Proof. repeat split; try (vm_compute; reflexivity). vm_compute; discriminate. Qed.

(** C2, as the code has it.  Each section is searched on its own, anywhere
    in the text, for the complete string [search_string title] (for the week
    menu, the heading of the prompt): without an occurrence the section is
    empty; otherwise it starts right after the leftmost occurrence and ends
    at the first place where the text ends or one of the three bare
    pictographs starts, trimmed.  So a pictograph inside the content is a
    boundary, and nothing else is. *)
Theorem extract_boundaries (text title : jsstring) :
  search_string title_weekMenu = heading_weekMenu
  /\ (includes (search_string title) text = false -> extract text title = [])
  /\ (forall pre rest,
        text = pre ++ search_string title ++ rest ->
        (forall n, n < List.length pre ->
                   starts_with (search_string title) (skipn n text) = false) ->
        exists body tail,
          rest = body ++ tail
          /\ at_boundary tail = true
          /\ (forall n, n < List.length body ->
                        at_boundary (skipn n rest) = false)
          /\ extract text title = trim body).
Proof.
  split; [reflexivity|]. split.
  - intros H. rewrite extract_eq.
    apply after_first_none in H. now rewrite H.
  - intros pre rest -> H.
    exists (until_boundary rest), (from_boundary rest).
    split; [apply boundary_split|].
    split; [apply from_boundary_at|].
    split; [intros n; apply until_boundary_first|].
    rewrite extract_eq, after_first_leftmost by exact H.
    reflexivity.
Qed.

(** A text where the heading is preceded by an introduction and followed
    by a bare pictograph. *)
Lemma extract_boundaries_witness :
  exists body tail,
    js " Mon 💡 soup" = body ++ tail
    /\ at_boundary tail = true
    /\ (forall n, n < List.length body ->
                  at_boundary (skipn n (js " Mon 💡 soup")) = false)
    /\ extract (js "Hi " ++ search_string title_weekMenu ++ js " Mon 💡 soup")
         title_weekMenu = trim body.
Proof.
  apply (proj2 (proj2 (extract_boundaries
                 (js "Hi " ++ search_string title_weekMenu ++ js " Mon 💡 soup")
                 title_weekMenu)) (js "Hi ") (js " Mon 💡 soup") eq_refl).
  intros n Hn.
  do 3 (destruct n as [|n]; [vm_compute; reflexivity|]).
  vm_compute in Hn. lia.
Defined.

End Parser.

(** ** Numbers *)

Section NumberFacts.

Lemma or_else_nan (x d : float) : PrimFloat.is_nan x = true -> or_else x d = d.
Proof. unfold or_else, truthy. now intros ->. Qed.

Lemma or_else_zero (x d : float) :
  PrimFloat.is_zero x = true -> or_else x d = d.
Proof. unfold or_else, truthy. intros ->. now rewrite orb_true_r. Qed.

Lemma or_else_truthy (x d : float) : truthy x = true -> or_else x d = x.
Proof. unfold or_else. now intros ->. Qed.

(** The three outcomes of [Math.max(1, y)]. *)
Lemma Math_max_one (y : float) :
  Math_max 1 y = PrimFloat.nan /\ PrimFloat.is_nan y = true
  \/ Math_max 1 y = y /\ (1 <? y)%float = true
  \/ Math_max 1 y = 1%float.
Proof.
  unfold Math_max.
  change (PrimFloat.is_nan 1) with false. cbn [orb].
  destruct (PrimFloat.is_nan y); [now left|].
  destruct (1 <? y)%float; [right; now left|].
  right; right.
  destruct (y <? 1)%float; reflexivity.
Qed.

Lemma above_one_positive (y : float) :
  (1 <? y)%float = true -> (y <=? 0)%float = false.
Proof.
  rewrite ltb_spec, leb_spec.
  replace (Prim2SF 1) with (S754_finite false 4503599627370496 (-52))
    by reflexivity.
  replace (Prim2SF 0) with (S754_zero false) by reflexivity.
  destruct (Prim2SF y) as [s|s| |s m e]; try destruct s; cbn; congruence.
Qed.

Lemma above_one_le (y : float) :
  (1 <? y)%float = true -> (1 <=? y)%float = true.
Proof.
  rewrite ltb_spec, leb_spec. unfold SFltb, SFleb.
  destruct (SFcompare (Prim2SF 1) (Prim2SF y)) as [[]|]; congruence.
Qed.

Lemma Math_max_one_not_below (y : float) : (Math_max 1 y <=? 0)%float = false.
Proof.
  destruct (Math_max_one y) as [[-> _]|[[-> H]| ->]];
    [reflexivity | now apply above_one_positive | reflexivity].
Qed.

Lemma Math_max_one_nan_or_above (y : float) :
  PrimFloat.is_nan (Math_max 1 y) = true \/ (1 <=? Math_max 1 y)%float = true.
Proof.
  destruct (Math_max_one y) as [[-> _]|[[-> H]| ->]];
    [now left | right; now apply above_one_le | now right].
Qed.

(** [Math_round] on a Number with a fractional part, [(-1)^s * m * 2^e] with
    [e < 0]: the result is the integer [n] with [n - 1/2 <= x < n + 1/2],
    that is, the nearest one, the upper one on a tie. *)
Lemma Math_round_nearest (x : float) (s : bool) (m : positive) (e : Z) :
  Prim2SF x = S754_finite s m e -> (e < 0)%Z ->
  let v := if s then Zneg m else Zpos m in
  let d := (2 ^ (- e))%Z in
  exists n : Z,
    (2 * n * d - d <= 2 * v < 2 * n * d + d)%Z
    /\ Math_round x
       = if (n =? 0)%Z then (if s then PrimFloat.neg_zero else PrimFloat.zero)
         else of_Z n.
Proof.
  intros Hx He v d. unfold Math_round. rewrite Hx.
  destruct (0 <=? e)%Z eqn:E; [apply Z.leb_le in E; lia|].
  fold v. fold d.
  exists ((2 * v + d) / (2 * d))%Z. split; [|reflexivity].
  assert (Hd : (0 < d)%Z) by (apply Z.pow_pos_nonneg; lia).
  pose proof (Z.div_mod (2 * v + d) (2 * d) ltac:(lia)) as Hq.
  pose proof (Z.mod_pos_bound (2 * v + d) (2 * d) ltac:(lia)) as Hr.
  nia.
Qed.

Example Math_round_samples :
  Math_round 2.5 = 3%float /\ Math_round (-2.5) = (-2)%float
  /\ Math_round 10 = 10%float /\ Math_round (-0.5) = PrimFloat.neg_zero
  /\ Math_round PrimFloat.nan = PrimFloat.nan
  /\ Math_round (34560000 / 86400000) = 0%float.
Proof. repeat split; reflexivity. Qed.

End NumberFacts.

(** ** Arrays *)

Section ArrayFacts.
Context {A : Type}.

Lemma js_filter_from (keep : A -> bool) (a kept : list A) :
  fold_left (fun kept x => if keep x then kept ++ [x] else kept) a kept
  = kept ++ filter keep a.
Proof.
  revert kept; induction a as [|x a IH]; intros kept; simpl.
  - now rewrite app_nil_r.
  - rewrite IH. destruct (keep x); [|reflexivity].
    now rewrite <- app_assoc.
Qed.

(** [js_filter] is the order-preserving filter of lists. *)
Lemma js_filter_filter (keep : A -> bool) (a : list A) :
  js_filter keep a = filter keep a.
Proof. unfold js_filter. now rewrite js_filter_from. Qed.

End ArrayFacts.

(** ** The weekly-plan handler *)

Section Handler.
Import SmartSuggest.
Context {E : Engine}.

Lemma item_of_row_run (W : World) (r : Row) (st : State) :
  item_of_row W r st
  = (inr (item_at W r (ticks st)),
     if present (get r "expiry")
     then {| ticks := S (ticks st); trace := trace st ++ [ReadClock] |}
     else st).
Proof.
  unfold item_of_row, item_at, bind, ret, now.
  destruct (present (get r "expiry")); reflexivity.
Qed.

(** The map never throws: it yields one item per row, in order, and reads
    the clock once per dated row. *)
Lemma mapM_inventory (W : World) (rows : list Row) (st : State) :
  mapM (item_of_row W) rows st
  = (inr (inventory_at W (ticks st) rows),
     {| ticks := ticks st + dated rows;
        trace := trace st ++ repeat ReadClock (dated rows) |}).
Proof.
  revert st; induction rows as [|r rows IH]; intros st.
  - destruct st; cbn. now rewrite Nat.add_0_r, app_nil_r.
  - cbn [mapM inventory_at dated]. unfold bind at 1.
    rewrite item_of_row_run. unfold bind at 1. rewrite IH.
    unfold ret. destruct (present (get r "expiry")); cbn; [|reflexivity].
    now rewrite <- app_assoc, Nat.add_succ_r.
Qed.

Lemma inventory_at_length (W : World) (rows : list Row) (k : nat) :
  List.length (inventory_at W k rows) = List.length rows.
Proof.
  revert k; induction rows as [|r rows IH]; intros k; simpl; auto.
Qed.

(** The item at index [n] comes from the row at index [n]. *)
Lemma inventory_at_nth (W : World) (rows : list Row) (k n : nat) (r : Row) :
  nth_error rows n = Some r ->
  nth_error (inventory_at W k rows) n
  = Some (item_at W r (k + dated (firstn n rows))).
Proof.
  revert k n; induction rows as [|r0 rows IH]; intros k n H.
  - destruct n; discriminate.
  - destruct n as [|n]; simpl in *.
    + injection H as ->. now rewrite Nat.add_0_r.
    + rewrite (IH _ _ H).
      destruct (present (get r0 "expiry")); do 2 f_equal; lia.
Qed.

(** Without the three headings sought by [extract], and so in the sentence
    used when the model fails, every section is empty. *)
Lemma offline_answer_sections :
  extract offline_answer title_weekMenu = []
  /\ extract offline_answer title_purchaseList = []
  /\ extract offline_answer title_reminders = [].
Proof. repeat split; vm_compute; reflexivity. Qed.

(** Once the rows are read the handler answers, and its three metrics are
    those of the inventory, with or without a model and whether or not the
    model throws. *)
Lemma smart_suggest_metrics (W : World) (goal capacity : option jsstring)
    (rows : list Row) :
  sheet_rows W = inr rows ->
  exists r st,
    smart_suggest W goal capacity start = (inr r, st)
    /\ urgent r = urgent_of (inventory_at W 0 rows)
    /\ totalValue r = totalValue_of (inventory_at W 0 rows)
    /\ avgDays r = avgDays_of (inventory_at W 0 rows).
Proof.
  intros H.
  unfold smart_suggest, try_catch, read_rows. unfold bind at 1 2.
  unfold emit at 1. rewrite H. unfold ret at 1.
  unfold bind at 1. rewrite mapM_inventory. cbn [ticks trace start].
  destruct (genAI W) as [model|].
  - unfold bind, try_catch, generate, bind, emit, throw, console_error, emit,
      ret.
    destruct (model _); eexists _, _; repeat split.
  - unfold ret. eexists _, _; repeat split.
Qed.

End Handler.

Section Fallbacks.
Import SmartSuggest.

Lemma model_calls_app (tr1 tr2 : list Event) :
  model_calls (tr1 ++ tr2) = model_calls tr1 ++ model_calls tr2.
Proof.
  induction tr1 as [|[| |p|l m] tr1 IH]; simpl; auto.
  now rewrite IH.
Qed.

Lemma model_calls_clock (k : nat) : model_calls (repeat ReadClock k) = [].
Proof. induction k; simpl; auto. Qed.

(** C3, refuting instance.  The row store cannot be read: the handler
    answers, but the object it sends has no [weekMenu], [purchaseList] or
    [reminders] key, so the three sections are not present as strings. *)
Lemma load_failure_omits_sections :
  exists r st,
    smart_suggest (E := Sample.engine) Sample.world_no_rows None None start
    = (inr r, st)
    /\ weekMenu r = None /\ purchaseList r = None /\ reminders r = None.
Proof. eexists _, _. repeat split. Qed.

(** C3, as the code has it.  When reading the rows throws, the handler does
    not throw: it logs the error and answers with the apology, an empty
    [urgent], [totalValue] 0 and [avgDays] 0, and without the three section
    keys; the model is not called. *)
Theorem load_failure_response {E : Engine} (W : World)
    (goal capacity : option jsstring) (err : Error) :
  sheet_rows W = inl err ->
  exists r st,
    smart_suggest W goal capacity start = (inr r, st)
    /\ answer r = apology
    /\ weekMenu r = None /\ purchaseList r = None /\ reminders r = None
    /\ urgent r = [] /\ totalValue r = 0%float /\ avgDays r = 0%float
    /\ model_calls (trace st) = []
    /\ trace st
       = [ReadRows;
          ConsoleError (js "❌ /api/smart-suggest 錯誤:") (message err)].
Proof.
  intros H.
  unfold smart_suggest, try_catch, read_rows. unfold bind at 1 2.
  unfold emit at 1. rewrite H.
  eexists _, _. repeat split.
Qed.

Lemma load_failure_response_witness :
  exists r st,
    smart_suggest (E := Sample.engine) Sample.world_no_rows
      (Some (js "vegetarian")) None start = (inr r, st)
    /\ answer r = apology
    /\ weekMenu r = None /\ purchaseList r = None /\ reminders r = None
    /\ urgent r = [] /\ totalValue r = 0%float /\ avgDays r = 0%float
    /\ model_calls (trace st) = []
    /\ trace st
       = [ReadRows;
          ConsoleError (js "❌ /api/smart-suggest 錯誤:")
            (js "socket hang up")].
Proof.
  apply (load_failure_response (E := Sample.engine) Sample.world_no_rows
           (Some (js "vegetarian")) None {| message := js "socket hang up" |}).
  reflexivity.
Defined.

(** C4.  The rows are read, a model handle exists and generation throws on
    the prompt built from the inventory: the answer is the fixed sentence,
    the three sections are empty strings, the three metrics are those of
    the inventory, and the model was called once. *)
Theorem model_failure_response {E : Engine} (W : World)
    (goal capacity : option jsstring) (rows : list Row)
    (model : jsstring -> Error + jsstring) (err : Error) :
  sheet_rows W = inr rows ->
  genAI W = Some model ->
  model (prompt goal capacity (inventory_at W 0 rows)) = inl err ->
  exists r st,
    smart_suggest W goal capacity start = (inr r, st)
    /\ answer r = offline_answer
    /\ weekMenu r = Some [] /\ purchaseList r = Some []
    /\ reminders r = Some []
    /\ urgent r = urgent_of (inventory_at W 0 rows)
    /\ avgDays r = avgDays_of (inventory_at W 0 rows)
    /\ totalValue r = totalValue_of (inventory_at W 0 rows)
    /\ model_calls (trace st) = [prompt goal capacity (inventory_at W 0 rows)]
    /\ trace st
       = ReadRows :: repeat ReadClock (dated rows)
         ++ [GenerateContent (prompt goal capacity (inventory_at W 0 rows));
             ConsoleError (js "⚠️ Gemini 產生內容失敗:") (message err)].
Proof.
  intros Hrows Hmodel Hthrow.
  destruct offline_answer_sections as (S1 & S2 & S3).
  unfold smart_suggest, try_catch, read_rows. unfold bind at 1 2.
  unfold emit at 1. rewrite Hrows. unfold ret at 1.
  unfold bind at 1. rewrite mapM_inventory. cbn [ticks trace start].
  rewrite Hmodel.
  unfold bind, try_catch, generate, bind, emit, throw, console_error, emit,
    ret.
  rewrite Hthrow. cbn [ticks trace app].
  eexists _, _. split; [reflexivity|].
  cbn [answer weekMenu purchaseList reminders urgent avgDays totalValue trace].
  rewrite S1, S2, S3.
  repeat split.
  - cbn [model_calls]. rewrite <- app_assoc, !model_calls_app, model_calls_clock.
    reflexivity.
  - now rewrite <- app_assoc.
Qed.

Lemma model_failure_response_witness :
  exists r st,
    smart_suggest (E := Sample.engine) Sample.world_model_fails None None start
    = (inr r, st)
    /\ answer r = offline_answer
    /\ weekMenu r = Some [] /\ purchaseList r = Some []
    /\ reminders r = Some []
    /\ urgent r
       = urgent_of (inventory_at (E := Sample.engine) Sample.world_model_fails 0
                      [Sample.milk; Sample.eggs; Sample.tofu])
    /\ avgDays r
       = avgDays_of (inventory_at (E := Sample.engine)
                       Sample.world_model_fails 0
                       [Sample.milk; Sample.eggs; Sample.tofu])
    /\ totalValue r
       = totalValue_of (inventory_at (E := Sample.engine)
                          Sample.world_model_fails 0
                          [Sample.milk; Sample.eggs; Sample.tofu])
    /\ model_calls (trace st)
       = [prompt (E := Sample.engine) None None
            (inventory_at (E := Sample.engine) Sample.world_model_fails 0
               [Sample.milk; Sample.eggs; Sample.tofu])]
    /\ trace st
       = ReadRows
         :: repeat ReadClock (dated [Sample.milk; Sample.eggs; Sample.tofu])
         ++ [GenerateContent
               (prompt (E := Sample.engine) None None
                  (inventory_at (E := Sample.engine) Sample.world_model_fails 0
                     [Sample.milk; Sample.eggs; Sample.tofu]));
             ConsoleError (js "⚠️ Gemini 產生內容失敗:")
               (message Sample.failure)].
Proof.
  apply (model_failure_response (E := Sample.engine) Sample.world_model_fails
           None None [Sample.milk; Sample.eggs; Sample.tofu]
           (fun _ => inl Sample.failure) Sample.failure);
    reflexivity.
Defined.

End Fallbacks.

(** ** Metrics *)

Section Metrics.
Import SmartSuggest.

(** C5.  [urgent] is the order-preserving filter of the inventory, taken
    after the freshness override, by [remaining < 40 || shelfLife < 5] with
    strict comparisons: an item at 40 and 5 is left out, an item at 39 is
    kept, and the handler sends this list whenever the rows are read. *)
Theorem urgent_is_stable_filter {E : Engine} (W : World)
    (goal capacity : option jsstring) (rows : list Row)
    (inventory : list item) :
  urgent_of inventory
  = filter (fun i => (remaining i <? 40)%float || (shelfLife i <? 5)%float)
      inventory
  /\ (forall n p a,
        is_urgent {| name := n; price := p; remaining := 40;
                     shelfLife := 5; averageDays := a |} = false)
  /\ (forall n p s a,
        is_urgent {| name := n; price := p; remaining := 39;
                     shelfLife := s; averageDays := a |} = true)
  /\ (sheet_rows W = inr rows ->
      exists r st,
        smart_suggest W goal capacity start = (inr r, st)
        /\ urgent r
           = filter
               (fun i => (remaining i <? 40)%float || (shelfLife i <? 5)%float)
               (inventory_at W 0 rows)).
Proof.
  split; [apply js_filter_filter|].
  split; [reflexivity|].
  split; [reflexivity|].
  intros H.
  destruct (smart_suggest_metrics W goal capacity rows H)
    as (r & st & Hr & Hu & _).
  exists r, st. split; [exact Hr|].
  rewrite Hu. apply js_filter_filter.
Qed.

(** With the clock at the new year: the milk is low (20), the tofu is
    missing its quantity and expires in two days, the eggs are neither. *)
Lemma urgent_is_stable_filter_witness :
  exists r st,
    smart_suggest (E := Sample.engine) Sample.world_no_model None None start
    = (inr r, st)
    /\ urgent r
       = filter
           (fun i => (remaining i <? 40)%float || (shelfLife i <? 5)%float)
           (inventory_at (E := Sample.engine) Sample.world_no_model 0
              [Sample.milk; Sample.eggs; Sample.tofu]).
Proof.
  apply (proj2 (proj2 (proj2
           (urgent_is_stable_filter (E := Sample.engine)
              Sample.world_no_model None None
              [Sample.milk; Sample.eggs; Sample.tofu] [])))).
  reflexivity.
Defined.

Example urgent_sample :
  map name
    (urgent_of (inventory_at (E := Sample.engine) Sample.world_no_model 0
                  [Sample.milk; Sample.eggs; Sample.tofu]))
  = [Some (js "Milk"); Some (js "Tofu")].
Proof. vm_compute. reflexivity. Qed.

(** C6.  A row with an expiry reads the clock once and gets
    [max(1, round((expiry - now) / 86400000))] as its shelf life, whatever
    its stored shelf life; the value is never zero or negative (it is NaN or
    at least 1); ten days ahead give 10 and 0.4 days ahead give 1.  This is
    the shelf life of the row's item in the inventory that the metrics are
    computed from, [now] being the clock reading taken at that row. *)
Theorem freshness_override {E : Engine} (W : World) (r : Row) (st : State) :
  present (get r "expiry") = true ->
  exists i,
    item_of_row W r st
    = (inr i, {| ticks := S (ticks st); trace := trace st ++ [ReadClock] |})
    /\ shelfLife i
       = Math_max 1
           (Math_round
              ((DateParse (ToString (get r "expiry")) - clock W (ticks st))
               / 86400000)%float)
    /\ (shelfLife i <=? 0)%float = false
    /\ (PrimFloat.is_nan (shelfLife i) = true
        \/ (1 <=? shelfLife i)%float = true)
    /\ ((DateParse (ToString (get r "expiry")) - clock W (ticks st))%float
        = 864000000%float ->
        shelfLife i = 10%float)
    /\ ((DateParse (ToString (get r "expiry")) - clock W (ticks st))%float
        = 34560000%float ->
        shelfLife i = 1%float)
    /\ (forall rows n,
          nth_error rows n = Some r ->
          exists j,
            nth_error (inventory_at W 0 rows) n = Some j
            /\ shelfLife j
               = Math_max 1
                   (Math_round
                      ((DateParse (ToString (get r "expiry"))
                        - clock W (dated (firstn n rows)))
                       / 86400000)%float)).
Proof.
  intros H. rewrite item_of_row_run, H.
  eexists. split; [reflexivity|].
  unfold item_at. rewrite H. cbn [shelfLife]. unfold fresh_shelfLife.
  change (1000 * 60 * 60 * 24)%float with 86400000%float.
  split; [reflexivity|].
  split; [apply Math_max_one_not_below|].
  split; [apply Math_max_one_nan_or_above|].
  split; [intros ->; reflexivity|].
  split; [intros ->; reflexivity|].
  intros rows n Hn. eexists.
  split; [apply (inventory_at_nth W rows 0 n r Hn)|].
  cbn. now rewrite H.
Qed.

(** The milk (stored shelf life 30) expires ten days after the clock
    reading, the leftovers (stored 3) 0.4 days after it. *)
Lemma freshness_override_witness :
  (exists i,
     item_of_row (E := Sample.engine) Sample.world_no_model Sample.milk start
     = (inr i, {| ticks := 1; trace := [ReadClock] |})
     /\ shelfLife i = 10%float)
  /\ (exists i,
        item_of_row (E := Sample.engine) Sample.world_no_model
          Sample.leftovers start
        = (inr i, {| ticks := 1; trace := [ReadClock] |})
        /\ shelfLife i = 1%float).
Proof.
  split.
  - destruct (freshness_override (E := Sample.engine) Sample.world_no_model
                Sample.milk start eq_refl)
      as (i & Hi & _ & _ & _ & H10 & _ & _).
    exists i. split; [exact Hi | apply H10; reflexivity].
  - destruct (freshness_override (E := Sample.engine) Sample.world_no_model
                Sample.leftovers start eq_refl)
      as (i & Hi & _ & _ & _ & _ & H1 & _).
    exists i. split; [exact Hi | apply H1; reflexivity].
Defined.

(** C7.  [avgDays] is [Math.round] of the mean of [averageDays], the sum
    taken from the first item on and divided by the number of items, or by 1
    when there is none.  When the mean has a fractional part the result is
    the integer [n] with [n - 1/2 <= mean < n + 1/2].  On an empty inventory
    it is 0, and the handler then answers with [avgDays] 0 and throws
    nothing. *)
Theorem avgDays_rounded_mean {E : Engine} (W : World)
    (goal capacity : option jsstring) (inventory : list item) :
  avgDays_of inventory = Math_round (mean_averageDays inventory)
  /\ (forall s m e,
        Prim2SF (mean_averageDays inventory) = S754_finite s m e ->
        (e < 0)%Z ->
        exists n : Z,
          (2 * n * 2 ^ (- e) - 2 ^ (- e)
           <= 2 * (if s then Zneg m else Zpos m)
           < 2 * n * 2 ^ (- e) + 2 ^ (- e))%Z
          /\ avgDays_of inventory
             = if (n =? 0)%Z
               then (if s then PrimFloat.neg_zero else PrimFloat.zero)
               else of_Z n)
  /\ avgDays_of [] = 0%float
  /\ (sheet_rows W = inr [] ->
      exists r st,
        smart_suggest W goal capacity start = (inr r, st)
        /\ avgDays r = 0%float
        /\ urgent r = [] /\ totalValue r = 0%float).
Proof.
  assert (Hmean : avgDays_of inventory
                  = Math_round (mean_averageDays inventory))
    by (destruct inventory; reflexivity).
  split; [exact Hmean|].
  split.
  { intros s m e Hx He. rewrite Hmean.
    exact (Math_round_nearest _ s m e Hx He). }
  split; [reflexivity|].
  intros H.
  destruct (smart_suggest_metrics W goal capacity [] H)
    as (r & st & Hr & Hu & Ht & Ha).
  exists r, st. repeat split; assumption.
Qed.

Lemma avgDays_rounded_mean_witness :
  exists r st,
    smart_suggest (E := Sample.engine) Sample.world_empty None None start
    = (inr r, st)
    /\ avgDays r = 0%float
    /\ urgent r = [] /\ totalValue r = 0%float.
Proof.
  apply (proj2 (proj2 (proj2 (avgDays_rounded_mean (E := Sample.engine)
                                Sample.world_empty None None [])))).
  reflexivity.
Defined.

Example avgDays_sample :
  avgDays_of (inventory_at (E := Sample.engine) Sample.world_no_model 0
                [Sample.milk; Sample.eggs; Sample.tofu])
  = 3%float.
Proof. vm_compute. reflexivity. Qed.

End Metrics.

(** ** The normalisers *)

Section Normalisers.
Import SmartSuggest.

Lemma missing_not_numeric {E : Engine} : not_numeric None = true.
Proof. reflexivity. Qed.

(** C8.  Each normaliser yields one item per row, in the order of the rows,
    and does not throw; a numeric cell that is missing or not a number
    becomes its default: price 0, remaining 0, averageDays 3, shelfLife 7
    (in the weekly plan, the stored shelf life, which is the item's shelf
    life when the row has no expiry). *)
Theorem normalisers_total_with_defaults {E : Engine} (W : World)
    (rows : list Row) (st : State) :
  (List.length (ApiItems.items rows) = List.length rows
   /\ forall n r, nth_error rows n = Some r ->
        nth_error (ApiItems.items rows) n = Some (ApiItems.item_of_row r))
  /\ (List.length (map AskAI.item_of_row rows) = List.length rows
      /\ forall n r, nth_error rows n = Some r ->
           nth_error (map AskAI.item_of_row rows) n
           = Some (AskAI.item_of_row r))
  /\ (exists st',
        mapM (item_of_row W) rows st
        = (inr (inventory_at W (ticks st) rows), st')
        /\ List.length (inventory_at W (ticks st) rows) = List.length rows
        /\ forall n r, nth_error rows n = Some r ->
             exists k,
               nth_error (inventory_at W (ticks st) rows) n
               = Some (item_at W r k))
  /\ not_numeric None = true
  /\ (forall r k,
        (not_numeric (get r "price") = true ->
         ApiItems.price (ApiItems.item_of_row r) = 0%float
         /\ AskAI.price (AskAI.item_of_row r) = 0%float
         /\ price (item_at W r k) = 0%float)
        /\ (not_numeric (get r "remaining") = true ->
            ApiItems.remaining (ApiItems.item_of_row r) = 0%float
            /\ AskAI.remaining (AskAI.item_of_row r) = 0%float
            /\ remaining (item_at W r k) = 0%float)
        /\ (not_numeric (get r "averageDays") = true ->
            ApiItems.averageDays (ApiItems.item_of_row r) = 3%float
            /\ averageDays (item_at W r k) = 3%float)
        /\ (not_numeric (get r "shelfLife") = true ->
            ApiItems.shelfLife (ApiItems.item_of_row r) = 7%float
            /\ AskAI.shelfLife (AskAI.item_of_row r) = 7%float
            /\ stored_shelfLife r = 7%float
            /\ (present (get r "expiry") = false ->
                shelfLife (item_at W r k) = 7%float))).
Proof.
  split.
  { split; [apply length_map|].
    intros n r H. unfold ApiItems.items. now rewrite nth_error_map, H. }
  split.
  { split; [apply length_map|].
    intros n r H. now rewrite nth_error_map, H. }
  split.
  { eexists. split; [apply mapM_inventory|].
    split; [apply inventory_at_length|].
    intros n r H. eexists. now apply inventory_at_nth. }
  split; [reflexivity|].
  intros r k. unfold not_numeric.
  repeat split; cbn; try (now apply or_else_nan).
  intros ->. now apply or_else_nan.
Qed.

(** The eggs have no price and the text x as [averageDays]; the tofu has
    only a name and an expiry. *)
Lemma normalisers_total_with_defaults_witness :
  ApiItems.price (ApiItems.item_of_row (E := Sample.engine) Sample.eggs)
  = 0%float
  /\ ApiItems.averageDays (ApiItems.item_of_row (E := Sample.engine)
                             Sample.eggs) = 3%float
  /\ ApiItems.shelfLife (ApiItems.item_of_row (E := Sample.engine)
                           Sample.tofu) = 7%float
  /\ nth_error (ApiItems.items (E := Sample.engine)
                  [Sample.milk; Sample.eggs; Sample.tofu]) 2
     = Some (ApiItems.item_of_row (E := Sample.engine) Sample.tofu).
Proof.
  pose proof (normalisers_total_with_defaults (E := Sample.engine)
                Sample.world_no_model
                [Sample.milk; Sample.eggs; Sample.tofu] start)
    as ((_ & Hnth) & _ & _ & _ & Hdef).
  destruct (Hdef Sample.eggs 0) as (Hp & _ & Ha & _).
  destruct (Hdef Sample.tofu 0) as (_ & _ & _ & Hs).
  split; [apply Hp; reflexivity|].
  split; [apply Ha; reflexivity|].
  split; [apply Hs; reflexivity|].
  apply Hnth. reflexivity.
Defined.

(** C9.  A numeric cell that reads as 0 is treated like a missing one: the
    fallback operator replaces +0 and -0, like NaN, by the default.  A
    stored shelf life of 0 becomes 7, a stored averageDays of 0 becomes 3,
    and a price or remaining of 0 is replaced by the default 0. *)
Theorem zero_reads_as_missing {E : Engine} (W : World) (r : Row) (k : nat) :
  (forall x d, PrimFloat.is_zero x = true ->
               or_else x d = d /\ or_else x d = or_else (ToNumber None) d)
  /\ (PrimFloat.is_zero (ToNumber (get r "shelfLife")) = true ->
      ApiItems.shelfLife (ApiItems.item_of_row r) = 7%float
      /\ AskAI.shelfLife (AskAI.item_of_row r) = 7%float
      /\ stored_shelfLife r = 7%float
      /\ (present (get r "expiry") = false ->
          shelfLife (item_at W r k) = 7%float))
  /\ (PrimFloat.is_zero (ToNumber (get r "averageDays")) = true ->
      ApiItems.averageDays (ApiItems.item_of_row r) = 3%float
      /\ averageDays (item_at W r k) = 3%float)
  /\ (PrimFloat.is_zero (ToNumber (get r "price")) = true ->
      ApiItems.price (ApiItems.item_of_row r) = 0%float
      /\ AskAI.price (AskAI.item_of_row r) = 0%float
      /\ price (item_at W r k) = 0%float)
  /\ (PrimFloat.is_zero (ToNumber (get r "remaining")) = true ->
      ApiItems.remaining (ApiItems.item_of_row r) = 0%float
      /\ AskAI.remaining (AskAI.item_of_row r) = 0%float
      /\ remaining (item_at W r k) = 0%float).
Proof.
  split.
  { intros x d H. rewrite (or_else_zero x d H). split; reflexivity. }
  repeat split; cbn; try (now apply or_else_zero).
  intros ->. now apply or_else_zero.
Qed.

(** The eggs are stored with the shelf life 0. *)
Lemma zero_reads_as_missing_witness :
  ApiItems.shelfLife (ApiItems.item_of_row (E := Sample.engine) Sample.eggs)
  = 7%float
  /\ AskAI.shelfLife (AskAI.item_of_row (E := Sample.engine) Sample.eggs)
     = 7%float
  /\ stored_shelfLife (E := Sample.engine) Sample.eggs = 7%float
  /\ (present (get Sample.eggs "expiry") = false ->
      shelfLife (item_at (E := Sample.engine) Sample.world_no_model
                   Sample.eggs 0) = 7%float).
Proof.
  apply (proj1 (proj2 (zero_reads_as_missing (E := Sample.engine)
                         Sample.world_no_model Sample.eggs 0))).
  reflexivity.
Defined.

End Normalisers.

(** ** General advice against the weekly plan *)

Section Advice.
Import SmartSuggest.

(** The general-advice handler once the rows are read. *)
Lemma ask_ai_loaded {E : Engine} (W : World) (question : option jsstring)
    (rows : list Row) :
  sheet_rows W = inr rows ->
  AskAI.ask_ai W question start
  = match genAI W with
    | None =>
        (inr {| AskAI.answer :=
                  AskAI.demo_answer (map AskAI.item_of_row rows) |},
         {| ticks := 0; trace := [ReadRows] |})
    | Some model =>
        let p := AskAI.prompt question (map AskAI.item_of_row rows) in
        match model p with
        | inr text =>
            (inr {| AskAI.answer := text |},
             {| ticks := 0; trace := [ReadRows; GenerateContent p] |})
        | inl err =>
            (inr {| AskAI.answer := AskAI.offline_answer |},
             {| ticks := 0;
                trace := [ReadRows; GenerateContent p;
                          ConsoleError (js "❌ /api/ask-ai 錯誤:")
                            (message err)] |})
        end
    end.
Proof.
  intros H.
  unfold AskAI.ask_ai, try_catch, read_rows. unfold bind at 1 2.
  unfold emit at 1. rewrite H. unfold ret at 1.
  destruct (genAI W) as [model|]; [|reflexivity].
  unfold generate, bind, emit, throw, console_error, emit, ret. cbv zeta.
  destruct (model _); reflexivity.
Qed.

(** C10.  General advice never reads the clock or parses a date: the shelf
    life of its items is the stored one (7 by default) whether or not the
    row has an expiry, that value is what its prompt prints, and its
    no-model answer is built from the same items; its result is the same
    under any clock and any date parser.  The weekly plan overrides the
    shelf life of a dated row, so a row without a stored shelf life that
    expires two days after the clock reading has shelf life 7 for general
    advice and 2 for the weekly plan. *)
Theorem advice_keeps_stored_shelfLife {E : Engine} (W : World) (r : Row)
    (k : nat) :
  AskAI.shelfLife (AskAI.item_of_row r)
  = or_else (ToNumber (get r "shelfLife")) 7
  /\ AskAI.prompt_line (AskAI.item_of_row r)
     = js "- " ++ ToString (get r "name") ++ js "：剩 "
       ++ NumberToString (or_else (ToNumber (get r "remaining")) 0)
       ++ js "%｜耐放約 "
       ++ NumberToString (or_else (ToNumber (get r "shelfLife")) 7)
       ++ js " 天｜到期日 "
       ++ (if present (get r "expiry") then ToString (get r "expiry")
           else js "未填")
       ++ js "｜單價約 $"
       ++ NumberToString (or_else (ToNumber (get r "price")) 0)
  /\ (forall question rows,
        sheet_rows W = inr rows ->
        (genAI W = None ->
         exists st,
           AskAI.ask_ai W question start
           = (inr {| AskAI.answer :=
                       AskAI.demo_answer (map AskAI.item_of_row rows) |}, st)
           /\ ticks st = 0)
        /\ (forall model, genAI W = Some model ->
              exists a st,
                AskAI.ask_ai W question start = (inr a, st)
                /\ ticks st = 0
                /\ model_calls (trace st)
                   = [AskAI.prompt question (map AskAI.item_of_row rows)]))
  /\ (forall question st (clock' : nat -> float) (parse' : jsstring -> float),
        AskAI.ask_ai
          (E := {| StringToNumber := StringToNumber;
                   NumberToString := NumberToString;
                   DateParse := parse' |})
          {| sheet_rows := sheet_rows W; clock := clock'; genAI := genAI W |}
          question st
        = AskAI.ask_ai W question st)
  /\ (present (get r "expiry") = true ->
      get r "shelfLife" = None ->
      (DateParse (ToString (get r "expiry")) - clock W k)%float
      = 172800000%float ->
      AskAI.shelfLife (AskAI.item_of_row r) = 7%float
      /\ shelfLife (item_at W r k) = 2%float
      /\ (shelfLife (item_at W r k)
          =? AskAI.shelfLife (AskAI.item_of_row r))%float = false).
Proof.
  split; [reflexivity|].
  split.
  { unfold AskAI.prompt_line, AskAI.item_of_row, cell_or.
    cbn [AskAI.name AskAI.remaining AskAI.shelfLife AskAI.expiry AskAI.price].
    destruct (get r "expiry") as [[|c e]|]; reflexivity. }
  split.
  { intros question rows H. split.
    - intros Hg. rewrite (ask_ai_loaded W question rows H), Hg.
      eexists. split; reflexivity.
    - intros model Hg. rewrite (ask_ai_loaded W question rows H), Hg.
      cbv zeta. destruct (model _); eexists _, _; repeat split. }
  split; [reflexivity|].
  intros He Hs Hd.
  assert (H7 : AskAI.shelfLife (AskAI.item_of_row r) = 7%float).
  { cbn. rewrite Hs. reflexivity. }
  assert (H2 : shelfLife (item_at W r k) = 2%float).
  { cbn. rewrite He. unfold fresh_shelfLife. rewrite Hd. reflexivity. }
  rewrite H7, H2. repeat split.
Qed.

(** The tofu has no stored shelf life and expires on 3 January; the clock
    stands at the new year. *)
Lemma advice_keeps_stored_shelfLife_witness :
  AskAI.shelfLife (AskAI.item_of_row (E := Sample.engine) Sample.tofu)
  = 7%float
  /\ shelfLife (item_at (E := Sample.engine) Sample.world_no_model
                  Sample.tofu 0) = 2%float
  /\ (shelfLife (item_at (E := Sample.engine) Sample.world_no_model
                   Sample.tofu 0)
      =? AskAI.shelfLife (AskAI.item_of_row (E := Sample.engine) Sample.tofu))
     %float = false.
Proof.
  apply (proj2 (proj2 (proj2 (proj2
           (advice_keeps_stored_shelfLife (E := Sample.engine)
              Sample.world_no_model Sample.tofu 0)))));
    reflexivity.
Defined.

(** Scenario A of the specification: no model handle, milk at 20 and eggs
    at 80; the answer lists both with their remaining percentages and the
    model is not called. *)
Example ask_ai_no_model_sample :
  AskAI.ask_ai (E := Sample.engine)
    {| sheet_rows := inr [Sample.milk; Sample.eggs];
       clock := fun _ => Sample.new_year;
       genAI := None |} (Some (js "dinner?")) start
  = (inr {| AskAI.answer :=
              js "⚠️ 尚未設定 GEMINI_API_KEY，目前為示意模式。
你的冰箱目前有：
- Milk（剩 20%）
- Eggs（剩 80%）
你可以先把剩餘量低或快過期的食材排進這幾天的料理。" |},
     {| ticks := 0; trace := [ReadRows] |}).
Proof. vm_compute. reflexivity. Qed.

End Advice.

(* ================================================================== *)
(** * Further properties of the code *)

(** ** Substrings and trimming *)

Section SubstringFacts.

Lemma includes_head (p s : jsstring) :
  starts_with p s = true -> includes p s = true.
Proof. intros H; destruct s; simpl in *; now rewrite H. Qed.

Lemma includes_cons (p s : jsstring) (c : N) :
  includes p s = true -> includes p (c :: s) = true.
Proof. intros H. cbn [includes]. rewrite H. apply orb_true_r. Qed.

(** [includes p s] holds exactly when [p] is a contiguous part of [s]. *)
Lemma includes_iff (p s : jsstring) :
  includes p s = true <-> exists pre post, s = pre ++ p ++ post.
Proof.
  split.
  - induction s as [|c s IH]; cbn [includes]; intros H.
    + rewrite orb_false_r in H.
      destruct p; [|discriminate]. now exists (@nil N), (@nil N).
    + apply orb_true_iff in H as [H|H].
      * apply starts_with_split in H.
        exists (@nil N), (skipn (List.length p) (c :: s)). exact H.
      * destruct (IH H) as (pre & post & ->).
        now exists (c :: pre), post.
  - intros (pre & post & ->).
    induction pre as [|c pre IH].
    + cbn [app]. apply includes_head, starts_with_app.
    + cbn [app]. now apply includes_cons.
Qed.

Lemma includes_trans (p q s : jsstring) :
  includes p q = true -> includes q s = true -> includes p s = true.
Proof.
  rewrite !includes_iff.
  intros (a & b & ->) (c & d & ->).
  exists (c ++ a), (b ++ d). now rewrite <- !app_assoc.
Qed.

Lemma includes_app_l (p s t : jsstring) :
  includes p s = true -> includes p (s ++ t) = true.
Proof.
  rewrite !includes_iff. intros (a & b & ->).
  exists a, (b ++ t). now rewrite <- !app_assoc.
Qed.

Lemma includes_refl (s : jsstring) : includes s s = true.
Proof. apply includes_iff. exists [], []. now rewrite app_nil_r. Qed.

Lemma includes_join (sep x : jsstring) (l : list jsstring) :
  In x l -> includes x (join sep l) = true.
Proof.
  induction l as [|y l IH]; intros H; [destruct H|].
  destruct l as [|z l].
  - destruct H as [->|[]]. apply includes_refl.
  - cbn [join]. destruct H as [->|H].
    + apply includes_app_l, includes_refl.
    + do 2 apply includes_app_r. now apply IH.
Qed.

Lemma trim_start_suffix (s : jsstring) :
  exists ws, s = ws ++ trim_start s.
Proof.
  induction s as [|c s (ws & IH)]; [now exists []|].
  cbn [trim_start]. destruct (is_space c); [|now exists []].
  exists (c :: ws). simpl. now f_equal.
Qed.

Lemma trim_start_head (s t : jsstring) (c : N) :
  trim_start s = c :: t -> is_space c = false.
Proof.
  induction s as [|d s IH]; cbn [trim_start]; [discriminate|].
  destruct (is_space d) eqn:D; [exact IH|].
  intros H; injection H as -> _. exact D.
Qed.

Lemma trim_start_fixed (s : jsstring) :
  match s with [] => True | c :: _ => is_space c = false end ->
  trim_start s = s.
Proof. destruct s as [|c s]; [reflexivity|]. cbn. now intros ->. Qed.

Lemma trim_prefix_of_trim_start (s : jsstring) :
  exists ws, trim_start s = trim s ++ ws.
Proof.
  unfold trim, trim_end.
  destruct (trim_start_suffix (rev (trim_start s))) as (ws & H).
  exists (rev ws).
  rewrite <- rev_app_distr, <- H. now rewrite rev_involutive.
Qed.

(** [trim s] is a contiguous part of [s]. *)
Lemma includes_trim (s : jsstring) : includes (trim s) s = true.
Proof.
  apply includes_iff.
  destruct (trim_start_suffix s) as (a & Ha).
  destruct (trim_prefix_of_trim_start s) as (b & Hb).
  exists a, b. now rewrite <- Hb.
Qed.

Lemma trim_head (s t : jsstring) (c : N) :
  trim s = c :: t -> is_space c = false.
Proof.
  intros H. destruct (trim_prefix_of_trim_start s) as (ws & Hw).
  rewrite H in Hw. exact (trim_start_head s _ _ Hw).
Qed.

Lemma trim_last (s t : jsstring) (c : N) :
  trim s = t ++ [c] -> is_space c = false.
Proof.
  unfold trim, trim_end. intros H.
  apply (f_equal (@rev N)) in H.
  rewrite rev_involutive, rev_app_distr in H.
  exact (trim_start_head _ _ _ H).
Qed.

End SubstringFacts.

Section ParserExtras.
Import SmartSuggest.

Lemma trimmed_trim (s : jsstring) : trimmed (trim s) = true.
Proof.
  unfold trimmed. destruct (trim s) as [|c t] eqn:T; [reflexivity|].
  rewrite (trim_head s t c T). cbn [negb andb].
  destruct (exists_last (l := c :: t) ltac:(discriminate)) as (u & d & Hu).
  rewrite Hu, last_last. rewrite Hu in T.
  now rewrite (trim_last s u d T).
Qed.

Lemma after_first_some (p s rest : jsstring) :
  after_first p s = Some rest -> exists pre, s = pre ++ p ++ rest.
Proof.
  induction s as [|c s IH]; cbn [after_first].
  - destruct (starts_with p []) eqn:P; [|discriminate].
    intros H; injection H as <-. exists []. now apply starts_with_split.
  - destruct (starts_with p (c :: s)) eqn:P.
    + intros H; injection H as <-. exists []. now apply starts_with_split.
    + intros H. destruct (IH H) as (pre & ->). now exists (c :: pre).
Qed.

Lemma includes_until_boundary (s : jsstring) :
  includes (until_boundary s) s = true.
Proof.
  apply includes_iff. exists [], (from_boundary s). apply boundary_split.
Qed.

(** No pictograph starts inside [until_boundary s]. *)
Lemma until_boundary_clean (p s : jsstring) :
  p = CALENDAR \/ p = RECEIPT \/ p = BULB ->
  includes p (until_boundary s) = false.
Proof.
  intros Hp.
  destruct (includes p (until_boundary s)) eqn:I; [|reflexivity].
  apply includes_iff in I as (pre & post & Hu).
  assert (Hn : List.length pre < List.length (until_boundary s)).
  { rewrite Hu, !length_app.
    destruct Hp as [-> | [-> | ->]]; cbn; lia. }
  pose proof (until_boundary_first s _ Hn) as B.
  rewrite (boundary_split s), Hu in B.
  rewrite <- !app_assoc, skipn_length_app in B.
  unfold at_boundary in B.
  destruct Hp as [-> | [-> | ->]]; rewrite starts_with_app in B;
    cbn [orb] in B; try discriminate;
    rewrite ?orb_true_r in B; discriminate.
Qed.

(** X1.  Whatever the reply and the title, the extracted section has no
    white space at either end. *)
Theorem extract_is_trimmed (text title : jsstring) :
  trimmed (extract text title) = true.
Proof.
  rewrite extract_eq.
  destruct (after_first (search_string title) text);
    [apply trimmed_trim | reflexivity].
Qed.

(** X2.  The extracted section is a contiguous part of the reply: the parser
    copies text and never adds any. *)
Theorem extract_is_part_of_reply (text title : jsstring) :
  includes (extract text title) text = true.
Proof.
  rewrite extract_eq.
  destruct (after_first (search_string title) text) as [rest|] eqn:A.
  - apply after_first_some in A as (pre & ->).
    apply includes_trans with (q := until_boundary rest);
      [apply includes_trim|].
    do 2 apply includes_app_r. apply includes_until_boundary.
  - apply includes_iff. now exists [], text.
Qed.

(** X3.  No section contains any of the three pictographs, so the heading
    of a later section never leaks into an earlier one. *)
Theorem extract_has_no_pictograph (text title : jsstring) :
  includes CALENDAR (extract text title) = false
  /\ includes RECEIPT (extract text title) = false
  /\ includes BULB (extract text title) = false.
Proof.
  rewrite extract_eq.
  destruct (after_first (search_string title) text) as [rest|];
    [|repeat split; reflexivity].
  assert (H : forall p, p = CALENDAR \/ p = RECEIPT \/ p = BULB ->
                includes p (trim (until_boundary rest)) = false).
  { intros p Hp.
    destruct (includes p (trim (until_boundary rest))) eqn:I; [|reflexivity].
    rewrite <- (until_boundary_clean p rest Hp).
    symmetry. apply includes_trans with (q := trim (until_boundary rest));
      [exact I | apply includes_trim]. }
  repeat split; apply H; auto.
Qed.

(** X4.  A reply without the calendar pictograph gives an empty section for
    every title, the purchase list and the reminders included. *)
Theorem no_calendar_no_section (text title : jsstring) :
  includes CALENDAR text = false -> extract text title = [].
Proof.
  intros H. rewrite extract_eq.
  destruct (after_first (search_string title) text) as [rest|] eqn:A;
    [|reflexivity].
  apply after_first_some in A as (pre & ->).
  rewrite includes_app_r in H; [discriminate|].
  unfold search_string. rewrite <- app_assoc.
  change (js "📅 ") with (CALENDAR ++ js " "). rewrite <- app_assoc.
  apply includes_head, starts_with_app.
Qed.

Lemma no_calendar_no_section_witness :
  extract (js "🧾 建議採購清單 rice 2kg") title_purchaseList = [].
Proof.
  apply (no_calendar_no_section (js "🧾 建議採購清單 rice 2kg")
           title_purchaseList).
  vm_compute. reflexivity.
Defined.

End ParserExtras.

(** ** The two advisory handlers under every outcome of the collaborators *)

Section HandlerExtras.
Import SmartSuggest.

(** The weekly-plan handler in one equation. *)
Lemma smart_suggest_run {E : Engine} (W : World) (goal capacity : option jsstring) :
  smart_suggest W goal capacity start
  = match sheet_rows W with
    | inl err =>
        (inr {| answer := apology; weekMenu := None; purchaseList := None;
                reminders := None; urgent := []; totalValue := 0;
                avgDays := 0 |},
         {| ticks := 0;
            trace := [ReadRows;
                      ConsoleError (js "❌ /api/smart-suggest 錯誤:")
                        (message err)] |})
    | inr rows =>
        let inventory := inventory_at W 0 rows in
        let read := ReadRows :: repeat ReadClock (dated rows) in
        match genAI W with
        | None =>
            (inr {| answer := no_model_answer; weekMenu := None;
                    purchaseList := None; reminders := None;
                    urgent := urgent_of inventory;
                    totalValue := totalValue_of inventory;
                    avgDays := avgDays_of inventory |},
             {| ticks := dated rows; trace := read |})
        | Some model =>
            let p := prompt goal capacity inventory in
            match model p with
            | inr text =>
                (inr {| answer := text;
                        weekMenu := Some (extract text title_weekMenu);
                        purchaseList := Some (extract text title_purchaseList);
                        reminders := Some (extract text title_reminders);
                        urgent := urgent_of inventory;
                        totalValue := totalValue_of inventory;
                        avgDays := avgDays_of inventory |},
                 {| ticks := dated rows;
                    trace := read ++ [GenerateContent p] |})
            | inl err =>
                (inr {| answer := offline_answer;
                        weekMenu := Some []; purchaseList := Some [];
                        reminders := Some [];
                        urgent := urgent_of inventory;
                        totalValue := totalValue_of inventory;
                        avgDays := avgDays_of inventory |},
                 {| ticks := dated rows;
                    trace := read
                             ++ [GenerateContent p;
                                 ConsoleError (js "⚠️ Gemini 產生內容失敗:")
                                   (message err)] |})
            end
        end
    end.
Proof.
  unfold smart_suggest, try_catch, read_rows. unfold bind at 1 2.
  unfold emit at 1.
  destruct (sheet_rows W) as [err|rows]; [reflexivity|].
  unfold ret at 1. unfold bind at 1. rewrite mapM_inventory.
  cbn [ticks trace start app]. cbv zeta.
  destruct (genAI W) as [model|]; [|reflexivity].
  unfold bind, try_catch, generate, bind, emit, throw, console_error, emit,
    ret.
  destruct (model _) as [err|text]; cbn [ticks trace].
  - destruct offline_answer_sections as (-> & -> & ->).
    now rewrite <- app_assoc.
  - reflexivity.
Qed.

Lemma model_calls_read (k : nat) :
  model_calls (ReadRows :: repeat ReadClock k) = [].
Proof. cbn. apply model_calls_clock. Qed.


(** X6.  With the rows read and no model handle, the weekly plan answers
    with its fixed notice and the metrics of the inventory, sends no section
    key, and calls no model. *)
Theorem smart_suggest_without_model {E : Engine} (W : World)
    (goal capacity : option jsstring) (rows : list Row) :
  sheet_rows W = inr rows ->
  genAI W = None ->
  exists st,
    smart_suggest W goal capacity start
    = (inr {| answer := no_model_answer; weekMenu := None;
              purchaseList := None; reminders := None;
              urgent := urgent_of (inventory_at W 0 rows);
              totalValue := totalValue_of (inventory_at W 0 rows);
              avgDays := avgDays_of (inventory_at W 0 rows) |}, st)
    /\ model_calls (trace st) = [].
Proof.
  intros Hr Hg. rewrite smart_suggest_run, Hr, Hg. cbv zeta.
  eexists. split; [reflexivity|]. apply model_calls_read.
Qed.

Lemma smart_suggest_without_model_witness :
  exists st,
    smart_suggest (E := Sample.engine) Sample.world_no_model None None start
    = (inr {| answer := no_model_answer; weekMenu := None;
              purchaseList := None; reminders := None;
              urgent := urgent_of
                          (inventory_at (E := Sample.engine)
                             Sample.world_no_model 0
                             [Sample.milk; Sample.eggs; Sample.tofu]);
              totalValue := totalValue_of
                              (inventory_at (E := Sample.engine)
                                 Sample.world_no_model 0
                                 [Sample.milk; Sample.eggs; Sample.tofu]);
              avgDays := avgDays_of
                           (inventory_at (E := Sample.engine)
                              Sample.world_no_model 0
                              [Sample.milk; Sample.eggs; Sample.tofu]) |},
       st)
    /\ model_calls (trace st) = [].
Proof.
  apply (smart_suggest_without_model (E := Sample.engine)
           Sample.world_no_model None None
           [Sample.milk; Sample.eggs; Sample.tofu]); reflexivity.
Defined.

(** X7.  When generation succeeds the reply is sent unchanged as [answer],
    the three sections are what [extract] finds in it, the metrics are those
    of the inventory, and the model was called exactly once, with the prompt
    built from the request and the inventory. *)
Theorem smart_suggest_with_reply {E : Engine} (W : World)
    (goal capacity : option jsstring) (rows : list Row)
    (model : jsstring -> Error + jsstring) (text : jsstring) :
  sheet_rows W = inr rows ->
  genAI W = Some model ->
  model (prompt goal capacity (inventory_at W 0 rows)) = inr text ->
  exists st,
    smart_suggest W goal capacity start
    = (inr {| answer := text;
              weekMenu := Some (extract text title_weekMenu);
              purchaseList := Some (extract text title_purchaseList);
              reminders := Some (extract text title_reminders);
              urgent := urgent_of (inventory_at W 0 rows);
              totalValue := totalValue_of (inventory_at W 0 rows);
              avgDays := avgDays_of (inventory_at W 0 rows) |}, st)
    /\ model_calls (trace st)
       = [prompt goal capacity (inventory_at W 0 rows)].
Proof.
  intros Hr Hg Hm. rewrite smart_suggest_run, Hr, Hg. cbv zeta.
  rewrite Hm. eexists. split; [reflexivity|].
  cbn [trace]. now rewrite model_calls_app, model_calls_read.
Qed.

Lemma smart_suggest_with_reply_witness :
  exists st,
    smart_suggest (E := Sample.engine) Sample.world_model_replies None None
      start
    = (inr {| answer := Sample.reply_with_headings;
              weekMenu :=
                Some (extract Sample.reply_with_headings title_weekMenu);
              purchaseList :=
                Some (extract Sample.reply_with_headings title_purchaseList);
              reminders :=
                Some (extract Sample.reply_with_headings title_reminders);
              urgent := urgent_of
                          (inventory_at (E := Sample.engine)
                             Sample.world_model_replies 0
                             [Sample.milk; Sample.eggs; Sample.tofu]);
              totalValue := totalValue_of
                              (inventory_at (E := Sample.engine)
                                 Sample.world_model_replies 0
                                 [Sample.milk; Sample.eggs; Sample.tofu]);
              avgDays := avgDays_of
                           (inventory_at (E := Sample.engine)
                              Sample.world_model_replies 0
                              [Sample.milk; Sample.eggs; Sample.tofu]) |},
       st)
    /\ model_calls (trace st)
       = [prompt (E := Sample.engine) None None
            (inventory_at (E := Sample.engine) Sample.world_model_replies 0
               [Sample.milk; Sample.eggs; Sample.tofu])].
Proof.
  apply (smart_suggest_with_reply (E := Sample.engine)
           Sample.world_model_replies None None
           [Sample.milk; Sample.eggs; Sample.tofu]
           (fun _ => inr Sample.reply_with_headings)
           Sample.reply_with_headings); reflexivity.
Defined.

(** The general-advice handler in one equation. *)
Lemma ask_ai_run {E : Engine} (W : World) (question : option jsstring) :
  AskAI.ask_ai W question start
  = match sheet_rows W with
    | inl err =>
        (inr {| AskAI.answer := AskAI.offline_answer |},
         {| ticks := 0;
            trace := [ReadRows;
                      ConsoleError (js "❌ /api/ask-ai 錯誤:") (message err)] |})
    | inr rows =>
        let inventory := map AskAI.item_of_row rows in
        match genAI W with
        | None =>
            (inr {| AskAI.answer := AskAI.demo_answer inventory |},
             {| ticks := 0; trace := [ReadRows] |})
        | Some model =>
            let p := AskAI.prompt question inventory in
            match model p with
            | inr text =>
                (inr {| AskAI.answer := text |},
                 {| ticks := 0; trace := [ReadRows; GenerateContent p] |})
            | inl err =>
                (inr {| AskAI.answer := AskAI.offline_answer |},
                 {| ticks := 0;
                    trace := [ReadRows; GenerateContent p;
                              ConsoleError (js "❌ /api/ask-ai 錯誤:")
                                (message err)] |})
            end
        end
    end.
Proof.
  destruct (sheet_rows W) as [err|rows] eqn:H.
  - unfold AskAI.ask_ai, try_catch, read_rows. unfold bind at 1 2.
    unfold emit at 1. now rewrite H.
  - rewrite (ask_ai_loaded W question rows H). reflexivity.
Qed.


(** X9.  General advice falls back to one fixed sentence both when the rows
    cannot be read and when generation throws; the error message goes to
    the console and never into the answer.  When generation succeeds the
    reply is the answer, unchanged. *)
Theorem ask_ai_outcomes {E : Engine} (W : World) (question : option jsstring)
    (err : Error) :
  (sheet_rows W = inl err ->
   AskAI.ask_ai W question start
   = (inr {| AskAI.answer := AskAI.offline_answer |},
      {| ticks := 0;
         trace := [ReadRows;
                   ConsoleError (js "❌ /api/ask-ai 錯誤:") (message err)] |}))
  /\ (forall rows model,
        sheet_rows W = inr rows ->
        genAI W = Some model ->
        model (AskAI.prompt question (map AskAI.item_of_row rows)) = inl err ->
        exists st,
          AskAI.ask_ai W question start
          = (inr {| AskAI.answer := AskAI.offline_answer |}, st)
          /\ In (ConsoleError (js "❌ /api/ask-ai 錯誤:") (message err))
               (trace st))
  /\ (forall rows model text,
        sheet_rows W = inr rows ->
        genAI W = Some model ->
        model (AskAI.prompt question (map AskAI.item_of_row rows)) = inr text ->
        exists st,
          AskAI.ask_ai W question start = (inr {| AskAI.answer := text |}, st)
          /\ model_calls (trace st)
             = [AskAI.prompt question (map AskAI.item_of_row rows)]).
Proof.
  split; [|split].
  - intros H. now rewrite ask_ai_run, H.
  - intros rows model Hr Hg Hm. rewrite ask_ai_run, Hr, Hg. cbv zeta.
    rewrite Hm. eexists. split; [reflexivity|]. cbn. auto.
  - intros rows model text Hr Hg Hm. rewrite ask_ai_run, Hr, Hg. cbv zeta.
    rewrite Hm. eexists. split; reflexivity.
Qed.

Lemma ask_ai_outcomes_witness :
  AskAI.ask_ai (E := Sample.engine) Sample.world_no_rows
    (Some (js "dinner?")) start
  = (inr {| AskAI.answer := AskAI.offline_answer |},
     {| ticks := 0;
        trace := [ReadRows;
                  ConsoleError (js "❌ /api/ask-ai 錯誤:")
                    (js "socket hang up")] |})
  /\ (exists st,
        AskAI.ask_ai (E := Sample.engine) Sample.world_model_fails
          (Some (js "dinner?")) start
        = (inr {| AskAI.answer := AskAI.offline_answer |}, st)
        /\ In (ConsoleError (js "❌ /api/ask-ai 錯誤:")
                 (message Sample.failure)) (trace st)).
Proof.
  split.
  - apply (proj1 (ask_ai_outcomes (E := Sample.engine) Sample.world_no_rows
                    (Some (js "dinner?"))
                    {| message := js "socket hang up" |})).
    reflexivity.
  - apply (proj1 (proj2 (ask_ai_outcomes (E := Sample.engine)
                           Sample.world_model_fails (Some (js "dinner?"))
                           Sample.failure))
             [Sample.milk; Sample.eggs; Sample.tofu]
             (fun _ => inl Sample.failure)); reflexivity.
Defined.

(** X10.  Without a model handle, the answer of general advice has, for
    every row of the sheet, the line made of its name and its remaining
    percentage. *)
Theorem demo_answer_lists_every_row {E : Engine} (W : World)
    (question : option jsstring) (rows : list Row) (r : Row) :
  sheet_rows W = inr rows ->
  genAI W = None ->
  In r rows ->
  exists a st,
    AskAI.ask_ai W question start = (inr a, st)
    /\ includes
         (js "- " ++ ToString (get r "name") ++ js "（剩 "
          ++ NumberToString (or_else (ToNumber (get r "remaining")) 0)
          ++ js "%）")
         (AskAI.answer a) = true.
Proof.
  intros Hr Hg Hin. rewrite ask_ai_run, Hr, Hg. cbv zeta.
  eexists _, _. split; [reflexivity|].
  cbn [AskAI.answer]. unfold AskAI.demo_answer.
  do 2 apply includes_app_r. apply includes_app_l.
  apply includes_join.
  change (js "- " ++ ToString (get r "name") ++ js "（剩 "
          ++ NumberToString (or_else (ToNumber (get r "remaining")) 0)
          ++ js "%）")
    with (AskAI.demo_line (AskAI.item_of_row r)).
  apply in_map, in_map, Hin.
Qed.

Lemma demo_answer_lists_every_row_witness :
  exists a st,
    AskAI.ask_ai (E := Sample.engine) Sample.world_no_model None start
    = (inr a, st)
    /\ includes
         (js "- " ++ ToString (get Sample.eggs "name") ++ js "（剩 "
          ++ NumberToString (Engine := Sample.engine)
               (or_else (ToNumber (E := Sample.engine)
                           (get Sample.eggs "remaining")) 0)
          ++ js "%）")
         (AskAI.answer a) = true.
Proof.
  apply (demo_answer_lists_every_row (E := Sample.engine)
           Sample.world_no_model None
           [Sample.milk; Sample.eggs; Sample.tofu] Sample.eggs);
    [reflexivity | reflexivity | right; left; reflexivity].
Defined.

(** X11.  Both prompts carry what the request and the sheet hold: the
    general-advice prompt has the question and a line for every item, the
    weekly-plan prompt has the goal and the capacity (or their fixed
    defaults when absent or empty), a line for every item, and the three
    headings. *)
Theorem prompts_carry_request_and_inventory {E : Engine}
    (question goal capacity : option jsstring)
    (advice : list AskAI.item) (inventory : list item) :
  includes (ToString question) (AskAI.prompt question advice) = true
  /\ (forall i, In i advice ->
        includes (AskAI.prompt_line i) (AskAI.prompt question advice) = true)
  /\ includes (cell_or goal (js "未指定，請規劃均衡多樣菜色"))
       (prompt goal capacity inventory) = true
  /\ includes (cell_or capacity (js "未知"))
       (prompt goal capacity inventory) = true
  /\ (forall i, In i inventory ->
        includes (prompt_line i) (prompt goal capacity inventory) = true)
  /\ includes heading_weekMenu (prompt goal capacity inventory) = true
  /\ includes heading_purchaseList (prompt goal capacity inventory) = true
  /\ includes heading_reminders (prompt goal capacity inventory) = true.
Proof.
  split.
  { unfold AskAI.prompt. apply includes_app_r, includes_app_l, includes_refl. }
  split.
  { intros i Hi. unfold AskAI.prompt.
    do 3 apply includes_app_r. apply includes_app_l, includes_join.
    now apply in_map. }
  split.
  { unfold prompt. apply includes_app_r, includes_app_l, includes_refl. }
  split.
  { unfold prompt. do 3 apply includes_app_r.
    apply includes_app_l, includes_refl. }
  split.
  { intros i Hi. unfold prompt.
    do 5 apply includes_app_r. apply includes_app_l, includes_join.
    now apply in_map. }
  apply prompt_asks_headings.
Qed.

End HandlerExtras.

(** ** Signs and NaN through the arithmetic of the freshness override *)

Section SignFacts.

Lemma shr_1_nonneg mrs : (0 <= shr_m mrs)%Z -> (0 <= shr_m (shr_1 mrs))%Z.
Proof.
  destruct mrs as [m r s]. cbn [shr_m]. intros H.
  destruct m as [|[p|p|]|p]; cbn; lia.
Qed.

Lemma iter_shr_1_nonneg p mrs :
  (0 <= shr_m mrs)%Z -> (0 <= shr_m (iter_pos shr_1 p mrs))%Z.
Proof.
  revert mrs; induction p as [p IH|p IH|]; intros mrs H; cbn [iter_pos].
  - apply IH, IH, shr_1_nonneg, H.
  - apply IH, IH, H.
  - apply shr_1_nonneg, H.
Qed.

Lemma shr_fexp_nonneg m e l :
  (0 <= m)%Z -> (0 <= shr_m (fst (shr_fexp prec emax m e l)))%Z.
Proof.
  intros H. unfold shr_fexp, shr.
  assert (H0 : (0 <= shr_m (shr_record_of_loc m l))%Z)
    by (destruct l as [|[]]; exact H).
  destruct (_ - e)%Z; cbn [fst]; auto using iter_shr_1_nonneg.
Qed.

Lemma round_nearest_even_nonneg m l :
  (0 <= m)%Z -> (0 <= round_nearest_even m l)%Z.
Proof.
  intros H. destruct l as [|[]]; cbn; try lia. destruct (Z.even m); lia.
Qed.

Lemma binary_round_aux_sign s m e l :
  (0 <= m)%Z -> has_sign s (binary_round_aux prec emax s m e l) = true.
Proof.
  intros H. unfold binary_round_aux.
  pose proof (shr_fexp_nonneg m e l H) as H1.
  destruct (shr_fexp prec emax m e l) as [mrs' e']. cbn [fst] in H1.
  pose proof (shr_fexp_nonneg _ e' loc_Exact
                (round_nearest_even_nonneg _ (loc_of_shr_record mrs') H1)) as H2.
  destruct (shr_fexp prec emax _ e' loc_Exact) as [mrs'' e'']. cbn [fst] in H2.
  destruct (shr_m mrs'') as [|p|p]; [| |lia].
  - cbn. apply eqb_reflx.
  - destruct (e'' <=? emax - prec)%Z; cbn; apply eqb_reflx.
Qed.

Lemma leb_zero_class (x : float) :
  (x <=? 0)%float = true -> not_above_zero (Prim2SF x) = true.
Proof.
  rewrite leb_spec.
  replace (Prim2SF 0) with (S754_zero false) by reflexivity.
  destruct (Prim2SF x) as [s|s| |s m e]; try destruct s; cbn; congruence.
Qed.

Lemma div_positive_class (a : spec_float) (m : positive) (e : Z) :
  not_above_zero a = true ->
  not_above_zero (SF64div a (S754_finite false m e)) = true.
Proof.
  destruct a as [s|s| |s mx ex]; cbn; try congruence.
  - now intros ->.
  - intros ->.
    destruct (SFdiv_core_binary prec emax (Z.pos mx) ex (Z.pos m) e)
      as [[mz ez] lz] eqn:D.
    assert (Hmz : (0 <= mz)%Z).
    { unfold SFdiv_core_binary in D.
      set (m' := match _ with Zpos _ => _ | Z0 => _ | Zneg _ => _ end) in D.
      assert (Hm' : (0 <= m')%Z).
      { subst m'. destruct (_ - _ - _)%Z; try lia.
        apply Z.shiftl_nonneg. lia. }
      pose proof (Z_div_mod m' (Z.pos m) ltac:(lia)) as Hd.
      destruct (Z.div_eucl m' (Z.pos m)) as [q r].
      injection D as <- _ _. nia. }
    pose proof (binary_round_aux_sign true mz ez lz Hmz) as Hs.
    change (not_above_zero (binary_round_aux prec emax true mz ez lz) = true).
    destruct (binary_round_aux prec emax true mz ez lz) as [s|s| |s m1 e1];
      cbn in *; try congruence; destruct s; cbn in *; congruence.
Qed.

Lemma of_uint63_class (k : PrimInt63.int) :
  has_sign false (Prim2SF (PrimFloat.of_uint63 k)) = true
  \/ exists s, Prim2SF (PrimFloat.of_uint63 k) = S754_zero s.
Proof.
  rewrite of_uint63_spec. unfold binary_normalize.
  pose proof (Uint63.to_Z_bounded k) as Hk.
  destruct (Uint63.to_Z k) as [|p|p]; [right; now exists false| |lia].
  left. unfold binary_round.
  destruct (shl_align _ _ _) as [mz ez].
  apply binary_round_aux_sign. lia.
Qed.

Lemma Math_round_class (x : float) :
  not_above_zero (Prim2SF x) = true ->
  not_above_zero (Prim2SF (Math_round x)) = true.
Proof.
  intros H. unfold Math_round.
  destruct (Prim2SF x) as [s|s| |s m e] eqn:P; try (now rewrite P).
  cbn in H. subst s.
  destruct (0 <=? e)%Z eqn:E0; [now rewrite P|].
  apply Z.leb_gt in E0.
  set (d := (2 ^ (- e))%Z).
  assert (Hd : (0 < d)%Z) by (apply Z.pow_pos_nonneg; lia).
  set (n := ((2 * Z.neg m + d) / (2 * d))%Z).
  assert (Hn : (n <= 0)%Z).
  { subst n. pose proof (Z.div_mod (2 * Z.neg m + d) (2 * d) ltac:(lia)).
    pose proof (Z.mod_pos_bound (2 * Z.neg m + d) (2 * d) ltac:(lia)). nia. }
  destruct (n =? 0)%Z eqn:N0; [reflexivity|].
  apply Z.eqb_neq in N0.
  destruct n as [|p|p]; [lia|lia|].
  cbn [of_Z]. rewrite opp_spec.
  destruct (of_uint63_class (Uint63.of_Z (Z.pos p))) as [Hs|[s Hs]].
  - destruct (Prim2SF (PrimFloat.of_uint63 (Uint63.of_Z (Z.pos p))))
      as [s|s| |s m1 e1]; cbn in *; try congruence;
      destruct s; cbn in *; congruence.
  - now rewrite Hs.
Qed.

Lemma Math_max_one_class (y : float) :
  not_above_zero (Prim2SF y) = true -> Math_max 1 y = 1%float.
Proof.
  intros H. unfold Math_max.
  change (PrimFloat.is_nan 1) with false. cbn [orb].
  assert (Hnan : PrimFloat.is_nan y = false).
  { unfold PrimFloat.is_nan. rewrite eqb_spec. unfold SFeqb.
    destruct (Prim2SF y) as [s|s| |s m e]; cbn in *; try congruence.
    - now destruct s.
    - subst s. rewrite Z.compare_refl, Pos.compare_cont_refl. reflexivity. }
  rewrite Hnan.
  assert (Hlt : (1 <? y)%float = false).
  { rewrite ltb_spec.
    replace (Prim2SF 1) with (S754_finite false 4503599627370496 (-52))
      by reflexivity.
    destruct (Prim2SF y) as [s|s| |s m e]; cbn in *; try congruence;
      now subst s. }
  rewrite Hlt. destruct (y <? 1)%float; reflexivity.
Qed.

Lemma is_nan_Prim2SF (x : float) :
  PrimFloat.is_nan x = true -> Prim2SF x = S754_nan.
Proof. intros H. unfold Prim2SF. now rewrite H. Qed.

Lemma Prim2SF_nan (x : float) : Prim2SF x = S754_nan -> x = PrimFloat.nan.
Proof. intros H. apply Prim2SF_inj. now rewrite H. Qed.

Lemma sub_nan_l (x t : float) :
  PrimFloat.is_nan x = true -> (x - t)%float = PrimFloat.nan.
Proof.
  intros H. apply Prim2SF_nan. rewrite sub_spec, (is_nan_Prim2SF x H).
  reflexivity.
Qed.

Lemma div_nan_l (t : float) : (PrimFloat.nan / t)%float = PrimFloat.nan.
Proof.
  apply Prim2SF_nan. rewrite div_spec.
  replace (Prim2SF PrimFloat.nan) with S754_nan by reflexivity. reflexivity.
Qed.

Lemma above_one_not_zero (y : float) :
  (1 <? y)%float = true -> PrimFloat.is_zero y = false.
Proof.
  unfold PrimFloat.is_zero. rewrite ltb_spec, eqb_spec.
  replace (Prim2SF 1) with (S754_finite false 4503599627370496 (-52))
    by reflexivity.
  replace (Prim2SF PrimFloat.zero) with (S754_zero false) by reflexivity.
  destruct (Prim2SF y) as [s|s| |s m e]; try destruct s; cbn; congruence.
Qed.

End SignFacts.

(** ** Normalised numbers and urgency *)

Section MetricExtras.
Import SmartSuggest.

Lemma or_else_not_nan (x d : float) :
  PrimFloat.is_nan d = false -> PrimFloat.is_nan (or_else x d) = false.
Proof.
  intros H. unfold or_else.
  destruct (truthy x) eqn:T; [|exact H].
  unfold truthy in T.
  destruct (PrimFloat.is_nan x); [discriminate | reflexivity].
Qed.

Lemma or_else_keeps_truthy (x d : float) :
  truthy d = true -> truthy (or_else x d) = true.
Proof. intros H. unfold or_else. destruct (truthy x) eqn:T; assumption. Qed.

Lemma truthy_not_zero (x : float) :
  truthy x = true -> PrimFloat.is_zero x = false.
Proof.
  unfold truthy. destruct (PrimFloat.is_nan x), (PrimFloat.is_zero x);
    cbn; congruence.
Qed.

Lemma fresh_shelfLife_not_zero {E : Engine} (expiry : option jsstring)
    (t : float) :
  PrimFloat.is_zero (fresh_shelfLife expiry t) = false.
Proof.
  unfold fresh_shelfLife.
  destruct (Math_max_one
              (Math_round
                 ((DateParse (ToString expiry) - t) / (1000 * 60 * 60 * 24))))
    as [[-> _]|[[-> H]| ->]];
    [reflexivity | now apply above_one_not_zero | reflexivity].
Qed.

(** X12.  After normalisation no price or remaining is NaN, no averageDays
    or shelf life is 0 (so none is NaN or 0 where the default is not 0), and
    the weight sent by /api/items is never the empty string; this holds for
    the three item maps and every row. *)
Theorem normalised_fields_are_sound {E : Engine} (W : World) (r : Row)
    (k : nat) :
  (PrimFloat.is_nan (ApiItems.price (ApiItems.item_of_row r)) = false
   /\ PrimFloat.is_nan (ApiItems.remaining (ApiItems.item_of_row r)) = false
   /\ truthy (ApiItems.averageDays (ApiItems.item_of_row r)) = true
   /\ truthy (ApiItems.shelfLife (ApiItems.item_of_row r)) = true
   /\ ApiItems.weight (ApiItems.item_of_row r) <> [])
  /\ (PrimFloat.is_nan (AskAI.price (AskAI.item_of_row r)) = false
      /\ PrimFloat.is_nan (AskAI.remaining (AskAI.item_of_row r)) = false
      /\ truthy (AskAI.shelfLife (AskAI.item_of_row r)) = true)
  /\ (PrimFloat.is_nan (price (item_at W r k)) = false
      /\ PrimFloat.is_nan (remaining (item_at W r k)) = false
      /\ truthy (averageDays (item_at W r k)) = true
      /\ PrimFloat.is_zero (shelfLife (item_at W r k)) = false).
Proof.
  repeat split; cbn;
    try (apply or_else_not_nan; reflexivity);
    try (apply or_else_keeps_truthy; reflexivity).
  - unfold cell_or. destruct (get r "weight") as [[|c s]|]; cbn;
      discriminate.
  - destruct (present (get r "expiry"));
      [apply fresh_shelfLife_not_zero|].
    apply truthy_not_zero, or_else_keeps_truthy. reflexivity.
Qed.

Lemma inventory_at_In {E : Engine} (W : World) (rows : list Row) (r : Row) :
  In r rows -> exists k, In (item_at W r k) (inventory_at W 0 rows).
Proof.
  intros H. apply In_nth_error in H as (n & Hn).
  eexists. eapply nth_error_In. exact (inventory_at_nth W rows 0 n r Hn).
Qed.

(** X13.  A row whose remaining is missing, not a number or 0 is always
    urgent: it is normalised to 0, which is below 40, so the weekly plan
    lists it under [urgent] whatever its shelf life. *)
Theorem row_without_remaining_is_urgent {E : Engine} (W : World)
    (rows : list Row) (r : Row) :
  truthy (ToNumber (get r "remaining")) = false ->
  In r rows ->
  exists i,
    In i (urgent_of (inventory_at W 0 rows))
    /\ name i = get r "name"
    /\ remaining i = 0%float.
Proof.
  intros Ht Hin.
  destruct (inventory_at_In W rows r Hin) as (k & Hk).
  exists (item_at W r k).
  assert (Hr : remaining (item_at W r k) = 0%float).
  { cbn. unfold or_else. now rewrite Ht. }
  split; [|split; [reflexivity | exact Hr]].
  unfold urgent_of. rewrite js_filter_filter.
  apply filter_In. split; [exact Hk|].
  unfold is_urgent. now rewrite Hr.
Qed.

Lemma row_without_remaining_is_urgent_witness :
  exists i,
    In i (urgent_of (inventory_at (E := Sample.engine) Sample.world_no_model 0
                       [Sample.milk; Sample.eggs; Sample.tofu]))
    /\ name i = get Sample.tofu "name"
    /\ remaining i = 0%float.
Proof.
  apply (row_without_remaining_is_urgent (E := Sample.engine)
           Sample.world_no_model [Sample.milk; Sample.eggs; Sample.tofu]
           Sample.tofu);
    [reflexivity | right; right; left; reflexivity].
Defined.

(** X14.  A row whose expiry is present but is not a date gets NaN as its
    shelf life in the weekly plan, whatever shelf life is stored; NaN is
    not below 5, so only its remaining decides whether it is urgent. *)
Theorem unparseable_expiry_gives_nan {E : Engine} (W : World) (r : Row)
    (k : nat) :
  present (get r "expiry") = true ->
  PrimFloat.is_nan (DateParse (ToString (get r "expiry"))) = true ->
  shelfLife (item_at W r k) = PrimFloat.nan
  /\ is_urgent (item_at W r k)
     = (or_else (ToNumber (get r "remaining")) 0 <? 40)%float.
Proof.
  intros Hp Hn.
  assert (Hs : shelfLife (item_at W r k) = PrimFloat.nan).
  { cbn. rewrite Hp. unfold fresh_shelfLife.
    rewrite (sub_nan_l _ _ Hn), div_nan_l. reflexivity. }
  split; [exact Hs|].
  unfold is_urgent. rewrite Hs. cbn. apply orb_false_r.
Qed.

Lemma unparseable_expiry_gives_nan_witness :
  shelfLife (item_at (E := Sample.engine) Sample.world_no_model
               MoreSamples.jam 0) = PrimFloat.nan
  /\ is_urgent (item_at (E := Sample.engine) Sample.world_no_model
                  MoreSamples.jam 0)
     = (or_else (ToNumber (E := Sample.engine)
                   (get MoreSamples.jam "remaining")) 0 <? 40)%float.
Proof.
  apply (unparseable_expiry_gives_nan (E := Sample.engine)
           Sample.world_no_model MoreSamples.jam 0); reflexivity.
Defined.

(** X15.  A row whose expiry is not after the clock reading (the difference
    in milliseconds is zero or negative) gets shelf life exactly 1 in the
    weekly plan and is therefore urgent, whatever its remaining and its
    stored shelf life. *)
Theorem expired_row_is_urgent {E : Engine} (W : World) (r : Row) (k : nat) :
  present (get r "expiry") = true ->
  (DateParse (ToString (get r "expiry")) - clock W k <=? 0)%float = true ->
  shelfLife (item_at W r k) = 1%float
  /\ is_urgent (item_at W r k) = true.
Proof.
  intros Hp Hd.
  assert (Hs : shelfLife (item_at W r k) = 1%float).
  { cbn. rewrite Hp. unfold fresh_shelfLife.
    apply Math_max_one_class, Math_round_class.
    rewrite div_spec.
    change (1000 * 60 * 60 * 24)%float with 86400000%float.
    replace (Prim2SF 86400000)
      with (S754_finite false 5798205849600000 (-26)) by reflexivity.
    apply div_positive_class, leb_zero_class, Hd. }
  split; [exact Hs|].
  unfold is_urgent. rewrite Hs. apply orb_true_r.
Qed.

(** On 11 January the tofu, which expired on 3 January, has shelf life 1. *)
Lemma expired_row_is_urgent_witness :
  shelfLife (item_at (E := Sample.engine) MoreSamples.world_later
               Sample.tofu 0) = 1%float
  /\ is_urgent (item_at (E := Sample.engine) MoreSamples.world_later
                  Sample.tofu 0) = true.
Proof.
  apply (expired_row_is_urgent (E := Sample.engine) MoreSamples.world_later
           Sample.tofu 0); reflexivity.
Defined.

End MetricExtras.

(** ** The service-account key *)

Section KeyFacts.
Import Config.

Lemma unescape_cons (c : N) (s : jsstring) :
  unescape_newlines (c :: s)
  = if starts_with ESCAPED (c :: s)
    then LINE_FEED :: unescape_newlines (skipn 1 s)
    else c :: unescape_newlines s.
Proof.
  cbn [unescape_newlines starts_with ESCAPED skipn].
  destruct s as [|d s]; cbn [unescape_newlines].
  - rewrite andb_false_r. reflexivity.
  - rewrite andb_true_r, (N.eqb_sym BACKSLASH c), (N.eqb_sym LETTER_N d).
    reflexivity.
Qed.

(** The output starts with a line feed or with the first character of the
    input. *)
Lemma unescape_head (s : jsstring) :
  match unescape_newlines s with
  | [] => s = []
  | d :: _ => d = LINE_FEED \/ exists t, s = d :: t
  end.
Proof.
  destruct s as [|c s]; [reflexivity|].
  rewrite unescape_cons.
  destruct (starts_with ESCAPED (c :: s)); [now left | right; now exists s].
Qed.

Lemma unescape_clean_aux (n : nat) (s : jsstring) :
  List.length s <= n -> includes ESCAPED (unescape_newlines s) = false.
Proof.
  revert s; induction n as [|n IH]; intros s Hn.
  - destruct s; [reflexivity | simpl in Hn; lia].
  - destruct s as [|c s]; [reflexivity|].
    rewrite unescape_cons.
    destruct (starts_with ESCAPED (c :: s)) eqn:P.
    + cbn [includes]. rewrite IH.
      * now destruct (unescape_newlines (skipn 1 s)).
      * destruct s; simpl in *; lia.
    + cbn [includes]. rewrite IH by (simpl in Hn; lia).
      rewrite orb_false_r.
      pose proof (unescape_head s) as H.
      destruct (unescape_newlines s) as [|d u].
      * cbn. now rewrite andb_false_r.
      * destruct H as [-> | (t & ->)].
        -- cbn. now rewrite andb_false_r.
        -- cbn [starts_with ESCAPED] in *. now rewrite andb_true_r in *.
Qed.

Lemma unescape_fixed (s : jsstring) :
  includes ESCAPED s = false -> unescape_newlines s = s.
Proof.
  induction s as [|c s IH]; [reflexivity|].
  intros H. cbn [includes] in H. apply orb_false_iff in H as [H1 H2].
  rewrite unescape_cons, H1. f_equal. now apply IH.
Qed.

(** X16.  The key given to the JWT client never contains a backslash
    followed by the letter n; a key without such a pair is passed on
    unchanged, so unescaping twice is the same as once; and an unset
    variable gives the empty key. *)
Theorem private_key_unescaped (env : option jsstring) :
  includes ESCAPED (private_key env) = false
  /\ (includes ESCAPED (cell_or env []) = false ->
      private_key env = cell_or env [])
  /\ unescape_newlines (private_key env) = private_key env
  /\ private_key None = [].
Proof.
  unfold private_key.
  assert (H : includes ESCAPED (unescape_newlines (cell_or env [])) = false)
    by (apply (unescape_clean_aux (List.length (cell_or env []))); lia).
  split; [exact H|].
  split; [apply unescape_fixed|].
  split; [now apply unescape_fixed | reflexivity].
Qed.

Example private_key_sample :
  private_key (Some StoreSample.pasted_key)
  = js "-----BEGIN-----
MIIE
-----END-----
".
Proof. vm_compute. reflexivity. Qed.

End KeyFacts.

(** ** The row-store routes *)

Section StoreExtras.
Import Store.

Lemma eqb_nan_r (x y : float) :
  PrimFloat.is_nan y = true -> (x =? y)%float = false.
Proof.
  intros H. rewrite eqb_spec, (is_nan_Prim2SF y H).
  unfold SFeqb. now destruct (Prim2SF x).
Qed.

Lemma js_find_none {A : Type} (accept : A -> bool) (a : list A) :
  (forall x, In x a -> accept x = false) -> js_find accept a = None.
Proof.
  induction a as [|x a IH]; intros H; [reflexivity|].
  cbn [js_find]. rewrite (H x (or_introl eq_refl)).
  apply IH. intros y Hy. apply H. now right.
Qed.





(** X19.  PUT /api/update-item/:id answers 404 and writes nothing when no
    row's index equals the id as a Number; in particular when the id is not
    a number at all. *)
Theorem update_item_not_found {E : Engine} (B : Backend) (id : jsstring)
    (req_body : string -> JSON.value) (rows : list Row) :
  load_sheet B = None ->
  get_rows B = inr rows ->
  PrimFloat.is_nan (StringToNumber id) = true
  \/ (forall r, In r rows -> index_matches id r = false) ->
  put_update_item B id req_body []
  = (inr {| status := 404; body := Failure (js "找不到該筆資料") |},
     [LoadSheet; GetRows]).
Proof.
  intros Hl Hr Hno.
  assert (Hnone : js_find (index_matches id) rows = None).
  { apply js_find_none. destruct Hno as [Hn|Hn]; [|exact Hn].
    intros r _. unfold index_matches. now apply eqb_nan_r. }
  unfold put_update_item, try_catch, bind, loadSheet, getRows, perform, ret.
  now rewrite Hl, Hr, Hnone.
Qed.

Lemma update_item_not_found_witness :
  put_update_item (E := Sample.engine) StoreSample.backend (js "abc")
    StoreSample.rice []
  = (inr {| status := 404; body := Failure (js "找不到該筆資料") |},
     [LoadSheet; GetRows]).
Proof.
  apply (update_item_not_found (E := Sample.engine) StoreSample.backend
           (js "abc") StoreSample.rice
           [Sample.milk; Sample.eggs; Sample.tofu]);
    [reflexivity | reflexivity | left; reflexivity].
Defined.



End StoreExtras.

(** ** The three item maps side by side *)

Section Agreement.
Import SmartSuggest.

Lemma prompts_carry_request_and_inventory_witness :
  includes
    (prompt_line (E := Sample.engine)
       (item_at (E := Sample.engine) Sample.world_no_model Sample.eggs 0))
    (prompt (E := Sample.engine) None None
       [item_at (E := Sample.engine) Sample.world_no_model Sample.milk 0;
        item_at (E := Sample.engine) Sample.world_no_model Sample.eggs 0])
  = true.
Proof.
  apply (proj1 (proj2 (proj2 (proj2 (proj2
           (prompts_carry_request_and_inventory (E := Sample.engine)
              None None None []
              [item_at (E := Sample.engine) Sample.world_no_model
                 Sample.milk 0;
               item_at (E := Sample.engine) Sample.world_no_model
                 Sample.eggs 0])))))).
  right; left; reflexivity.
Defined.



End Agreement.
